(** * x84 BBS: the lightbar selector and the line editor

    A shallow embedding of [bbs/lightbar.py] and [bbs/input.py] with the
    properties of their specification.

    Python objects are mutated in place and keep what was written to them
    when an exception unwinds the stack, so every method is a function from
    the object to an outcome paired with the object as the method left it. *)

From Stdlib Require Import ZArith List String Ascii Bool Lia.
From stdpp Require Import base gmap strings list.
Import ListNotations.
Local Open Scope Z_scope.

(** ** Python values, exceptions and the state-and-exception monad *)

Module py.

(** The values that travel as keystrokes, key constants and event payloads:
    text, integers (key codes, [curses.ascii.BEL]) and [None]. *)
Inductive pyval : Type :=
| PyStr (s : string)
| PyInt (n : Z)
| PyNone.

(** Python's [==] on these values. *)
Definition pyval_eqb (a b : pyval) : bool :=
  match a, b with
  | PyStr s, PyStr t => String.eqb s t
  | PyInt n, PyInt m => Z.eqb n m
  | PyNone, PyNone => true
  | _, _ => false
  end.

(** [x in l] on a Python list. *)
Definition py_in (x : pyval) (l : list pyval) : bool := existsb (pyval_eqb x) l.

Inductive exn : Type :=
| AttributeError (name : string)
| KeyError (key : string)
| IndexError
| TypeError (what : string).

(** How a call ends: it returns, it raises, or it has not ended when the
    model stops following it (a loop out of its budget of iterations, a read
    that waits for an event nobody delivers). *)
Inductive outcome (A : Type) : Type :=
| Ret (a : A)
| Raise (e : exn)
| Unfinished.
Arguments Ret {A} a.
Arguments Raise {A} e.
Arguments Unfinished {A}.

(** A method over a mutable object of type [S]. *)
Definition SE (S A : Type) : Type := S -> outcome A * S.

Definition ret {S A} (a : A) : SE S A := fun s => (Ret a, s).
Definition raise {S A} (e : exn) : SE S A := fun s => (Raise e, s).
Definition bind {S A B} (m : SE S A) (k : A -> SE S B) : SE S B :=
  fun s =>
    match m s with
    | (Ret a, s') => k a s'
    | (Raise e, s') => (Raise e, s')
    | (Unfinished, s') => (Unfinished, s')
    end.
Definition get {S} : SE S S := fun s => (Ret s, s).
Definition modify {S} (f : S -> S) : SE S unit := fun s => (Ret tt, f s).
Definition lift {S A} (o : outcome A) : SE S A := fun s => (o, s).

(** [while cond: body], with a budget of iterations. *)
Fixpoint while {S} (fuel : nat) (cond : S -> bool) (body : SE S unit) : SE S unit :=
  fun s =>
    if cond s then
      match fuel with
      | O => (Unfinished, s)
      | Datatypes.S fuel' => bind body (fun _ => while fuel' cond body) s
      end
    else (Ret tt, s).

(** [range(n)] *)
Definition range (n : Z) : list Z := map Z.of_nat (seq 0 (Z.to_nat n)).

(** [l[i]]: negative indices count from the end, anything else outside the
    list raises [IndexError]. *)
Definition getitem {A} (l : list A) (i : Z) : outcome A :=
  let n := Z.of_nat (length l) in
  let j := if i <? 0 then i + n else i in
  if (0 <=? j) && (j <? n) then
    match l !! Z.to_nat j with
    | Some x => Ret x
    | None => Raise IndexError
    end
  else Raise IndexError.

(** [d[k]] on a dict. *)
Definition dict_getitem {V} (d : gmap string V) (k : string) : outcome V :=
  match d !! k with
  | Some v => Ret v
  | None => Raise (KeyError k)
  end.

(** The key constants the two modules read from the terminal object. The
    terminal class is not part of the sources: each constant is a
    parameter. *)
Record Terminal : Type := {
  KEY_HOME : pyval;
  KEY_END : pyval;
  KEY_PPAGE : pyval;
  KEY_NPAGE : pyval;
  KEY_KEY_UP : pyval;
  KEY_DOWN : pyval;
  KEY_EXIT : pyval;
  KEY_ENTER : pyval;
  KEY_BACKSPACE : pyval
}.

End py.

Import py.

Declare Scope py_scope.
Delimit Scope py_scope with py.
Notation "x <- m ;; k" := (bind m (fun x => k))
  (at level 100, m at next level, right associativity) : py_scope.
Notation "m ;; k" := (bind m (fun _ => k))
  (at level 100, right associativity) : py_scope.
Local Open Scope py_scope.

(** ** bbs/lightbar.py *)

Module lightbar.

Abbreviation Keyset := (gmap string (list pyval)).

(** [NETHACK_KEYSET], lines 8-15: one dict object, shared by the module and
    every instance that stores it in [self.keyset]. *)
Definition NETHACK_KEYSET : Keyset :=
  <["home" := [PyStr "y"]]>
  (<["end" := [PyStr "n"]]>
  (<["pgup" := [PyStr "h"]]>
  (<["pgdown" := [PyStr "l"]]>
  (<["up" := [PyStr "k"]]>
  (<["down" := [PyStr "j"]]>
  (<["exit" := [PyStr "q"]]> ∅)))))).

(** What [Lightbar] reads from its base class [bbs.ansiwin.AnsiWindow]. The
    base class is not part of the sources: the geometry it derives is a
    parameter of every instance. *)
Record AnsiWindow : Type := {
  visible_height : Z;
  visible_width : Z;
  visible_bottom : Z;
  ypadding : Z;
  xpadding : Z
}.

(** The instance attributes of lines 34-41, with the window of the base
    class. *)
Record Lightbar : Type := {
  window : AnsiWindow;
  _vitem_idx : Z;
  _vitem_lastidx : Z;
  _vitem_shift : Z;
  _vitem_lastshift : Z;
  _moved : bool;
  _quit : bool;
  content : list string;
  keyset : Keyset
}.

Definition with_vitem_idx (v : Z) (self : Lightbar) : Lightbar :=
  {| window := window self; _vitem_idx := v; _vitem_lastidx := _vitem_lastidx self;
     _vitem_shift := _vitem_shift self; _vitem_lastshift := _vitem_lastshift self;
     _moved := _moved self; _quit := _quit self; content := content self;
     keyset := keyset self |}.
Definition with_vitem_lastidx (v : Z) (self : Lightbar) : Lightbar :=
  {| window := window self; _vitem_idx := _vitem_idx self; _vitem_lastidx := v;
     _vitem_shift := _vitem_shift self; _vitem_lastshift := _vitem_lastshift self;
     _moved := _moved self; _quit := _quit self; content := content self;
     keyset := keyset self |}.
Definition with_vitem_shift (v : Z) (self : Lightbar) : Lightbar :=
  {| window := window self; _vitem_idx := _vitem_idx self;
     _vitem_lastidx := _vitem_lastidx self;
     _vitem_shift := v; _vitem_lastshift := _vitem_lastshift self;
     _moved := _moved self; _quit := _quit self; content := content self;
     keyset := keyset self |}.
Definition with_vitem_lastshift (v : Z) (self : Lightbar) : Lightbar :=
  {| window := window self; _vitem_idx := _vitem_idx self;
     _vitem_lastidx := _vitem_lastidx self;
     _vitem_shift := _vitem_shift self; _vitem_lastshift := v;
     _moved := _moved self; _quit := _quit self; content := content self;
     keyset := keyset self |}.
Definition with_moved (v : bool) (self : Lightbar) : Lightbar :=
  {| window := window self; _vitem_idx := _vitem_idx self;
     _vitem_lastidx := _vitem_lastidx self;
     _vitem_shift := _vitem_shift self; _vitem_lastshift := _vitem_lastshift self;
     _moved := v; _quit := _quit self; content := content self;
     keyset := keyset self |}.
Definition with_quit (v : bool) (self : Lightbar) : Lightbar :=
  {| window := window self; _vitem_idx := _vitem_idx self;
     _vitem_lastidx := _vitem_lastidx self;
     _vitem_shift := _vitem_shift self; _vitem_lastshift := _vitem_lastshift self;
     _moved := _moved self; _quit := v; content := content self;
     keyset := keyset self |}.
Definition with_content (v : list string) (self : Lightbar) : Lightbar :=
  {| window := window self; _vitem_idx := _vitem_idx self;
     _vitem_lastidx := _vitem_lastidx self;
     _vitem_shift := _vitem_shift self; _vitem_lastshift := _vitem_lastshift self;
     _moved := _moved self; _quit := _quit self; content := v;
     keyset := keyset self |}.

(** One piece of the text a redraw returns: what a single call of
    [refresh_row] contributes. Line 66 returns the fill glyph repeated over
    the visible width; lines 62-71 return the cursor move to the row followed
    by the highlight or the lowlight colour and the normal colour. The
    escape sequences themselves come from the base class. *)
Inductive RowRender : Type :=
| Fill (width : Z)
| Entry (y x : Z) (highlight : bool).

(** A unicode string built by redraws, kept as the list of its pieces;
    [u''] is [[]] and [+=] is [++]. *)
Abbreviation unibytes := (list RowRender).

(** *** Read-only properties *)

(** [len(self.content)] *)
Definition len (self : Lightbar) : Z := Z.of_nat (length (content self)).

(** Lines 137-144: [moved] has a getter and no setter. *)
Definition moved (self : Lightbar) : bool := _moved self.
(** Lines 146-152. *)
Definition quit (self : Lightbar) : bool := _quit self.
(** Lines 190-198 and 209-218. *)
Definition vitem_idx (self : Lightbar) : Z := _vitem_idx self.
Definition vitem_shift (self : Lightbar) : Z := _vitem_shift self.
(** Lines 154-159. *)
Definition index (self : Lightbar) : Z := vitem_shift self + vitem_idx self.
(** Lines 168-173. *)
Definition last_index (self : Lightbar) : Z :=
  _vitem_lastshift self + _vitem_lastidx self.
(** Lines 175-181. *)
Definition position (self : Lightbar) : Z * Z := (vitem_idx self, vitem_shift self).
(** Lines 161-166: [self.content[self.index]]. *)
Definition selection : SE Lightbar string :=
  self <- get ;; lift (getitem (content self) (index self)).

(** *** Setters *)

(** [self.moved = True], lines 207 and 227. The class declares [moved] with
    [@property] and gives it no setter, so the assignment raises
    [AttributeError] and [_moved] keeps its value. *)
Definition moved_set (value : bool) : SE Lightbar unit :=
  raise (AttributeError "moved").

(** Lines 200-207. *)
Definition vitem_idx_set (value : Z) : SE Lightbar unit :=
  self <- get ;;
  if negb (_vitem_idx self =? value) then
    modify (with_vitem_lastidx (_vitem_idx self)) ;;
    modify (with_vitem_idx value) ;;
    moved_set true
  else ret tt.

(** Lines 220-227. *)
Definition vitem_shift_set (value : Z) : SE Lightbar unit :=
  self <- get ;;
  if negb (_vitem_shift self =? value) then
    modify (with_vitem_lastshift (_vitem_shift self)) ;;
    modify (with_vitem_shift value) ;;
    moved_set true
  else ret tt.

(** Lines 229-249. A Python integer is true when it is not zero. *)
Definition _chk_bounds (fuel : nat) : SE Lightbar unit :=
  self <- get ;;
  (if negb (vitem_shift self =? 0) && (index self + 1 >? len self) then
     (self <- get ;;
      vitem_shift_set (len self - visible_height (window self) + 1)) ;;
     (self <- get ;;
      vitem_idx_set (visible_height (window self) - 2))
   else ret tt) ;;
  while fuel
    (fun self => negb (vitem_shift self =? 0)
                 && (vitem_shift self + visible_height (window self) - 1 >? len self))
    ((self <- get ;; vitem_shift_set (vitem_shift self - 1)) ;;
     (self <- get ;; vitem_idx_set (vitem_idx self + 1))) ;;
  while fuel
    (fun self => (vitem_idx self >? 0) && (index self >=? len self))
    (self <- get ;; vitem_idx_set (vitem_idx self - 1)).

(** Lines 183-188: the setter of [position]. *)
Definition position_set (fuel : nat) (pos_tuple : Z * Z) : SE Lightbar unit :=
  vitem_idx_set (fst pos_tuple) ;;
  vitem_shift_set (snd pos_tuple) ;;
  _chk_bounds fuel.

(** Lines 45-52, the body of [update]. *)
Definition update (fuel : nat) (unicodelist : option (list string)) : SE Lightbar unit :=
  let unicodelist :=
    match unicodelist with
    | None => [""%string]
    | Some l => l
    end in
  modify (with_content unicodelist) ;;
  self <- get ;;
  position_set fuel (vitem_idx self, vitem_shift self).

(** Line 44 decorates [update] with [@property]: reading the attribute
    [lightbar.update] runs the body with [unicodelist] left at its default
    and yields the body's [None]. *)
Definition update_attr (fuel : nat) : SE Lightbar pyval :=
  update fuel None ;; ret PyNone.

(** [lightbar.update(unicodelist)] therefore reads the attribute and then
    calls the [None] it got. *)
Definition update_call (fuel : nat) (unicodelist : list string) : SE Lightbar unit :=
  update_attr fuel ;; raise (TypeError "'NoneType' object is not callable").

(** *** Redraws *)

(** Lines 54-71. *)
Definition refresh_row (ypos : Z) (self : Lightbar) : RowRender :=
  let entry := vitem_shift self + ypos in
  if entry >=? len self then Fill (visible_width (window self))
  else Entry (ypadding (window self) + ypos) (xpadding (window self))
             (entry =? index self).

(** Lines 73-78. *)
Definition refresh (self : Lightbar) : unibytes :=
  map (fun ypos => refresh_row ypos self) (range (visible_bottom (window self))).

(** Lines 80-96. *)
Definition refresh_quick (self : Lightbar) : unibytes :=
  if negb (_vitem_lastshift self =? vitem_shift self)
     && negb (_vitem_lastshift self =? -1)
  then refresh self
  else if moved self then
    if negb (_vitem_lastidx self =? -1) then
      [refresh_row (_vitem_lastidx self) self; refresh_row (vitem_idx self) self]
    else []
  else [].

(** *** Navigation *)

(** Lines 251-261. *)
Definition move_down : SE Lightbar unibytes :=
  self <- get ;;
  if index self >=? len self then ret []
  else
    (if vitem_idx self + 1 <? visible_bottom (window self) then
       vitem_idx_set (vitem_idx self + 1)
     else if vitem_idx self <? len self then
       vitem_shift_set (vitem_shift self + 1)
     else ret tt) ;;
    ret [].

(** Lines 307-314. *)
Definition move_home : SE Lightbar unibytes :=
  self <- get ;;
  (if negb ((vitem_idx self =? 0) && (vitem_shift self =? 0)) then
     vitem_idx_set 0 ;;
     vitem_shift_set 0
   else ret tt) ;;
  ret [].

(** Lines 316-325. *)
Definition move_end : SE Lightbar unibytes :=
  self <- get ;;
  (if len self <? visible_height (window self) then
     vitem_idx_set (len self - 1)
   else
     vitem_shift_set (len self - visible_height (window self)) ;;
     (self <- get ;; vitem_idx_set (visible_height (window self) - 1))) ;;
  ret [].

(** [self.move_pageup], [self.move_pagedown] and [self.move_up] of lines 126,
    128 and 130: the class defines [_pageup], [_pagedown] and [_up] (lines
    263-305) and nothing under the names that are called. *)
Definition move_pageup : SE Lightbar unibytes := raise (AttributeError "move_pageup").
Definition move_pagedown : SE Lightbar unibytes := raise (AttributeError "move_pagedown").
Definition move_up : SE Lightbar unibytes := raise (AttributeError "move_up").

(** [self.keyset[name]] *)
Definition keys (name : string) : SE Lightbar (list pyval) :=
  self <- get ;; lift (dict_getitem (keyset self) name).

(** Lines 115-135. *)
Definition process_keystroke (key : pyval) : SE Lightbar unibytes :=
  modify (with_moved false) ;;
  home <- keys "home" ;;
  if py_in key home then move_home else
  end_ <- keys "end" ;;
  if py_in key end_ then move_end else
  pgup <- keys "pgup" ;;
  if py_in key pgup then move_pageup else
  pgdown <- keys "pgdown" ;;
  if py_in key pgdown then move_pagedown else
  up <- keys "up" ;;
  if py_in key up then move_up else
  down <- keys "down" ;;
  if py_in key down then move_down else
  exit <- keys "exit" ;;
  if py_in key exit then modify (with_quit true) ;; ret []
  else ret [].

(** *** Construction *)

(** [self.keyset[name].append(value)]: the subscript is evaluated before the
    argument, and the list is changed inside the dict. *)
Definition keyset_append (name : string) (value : pyval) : SE Keyset unit :=
  ks <- get ;;
  l <- lift (dict_getitem ks name) ;;
  modify (insert name (l ++ [value])).

(** Lines 99-113. [self.keyset] is the module's [NETHACK_KEYSET] object, so
    the state of this method is that dict. *)
Definition init_keystrokes (term : Terminal) : SE Keyset unit :=
  keyset_append "home" (KEY_HOME term) ;;
  keyset_append "end" (KEY_END term) ;;
  keyset_append "pageup" (KEY_PPAGE term) ;;
  keyset_append "pagedown" (KEY_NPAGE term) ;;
  keyset_append "up" (KEY_KEY_UP term) ;;
  keyset_append "down" (KEY_DOWN term) ;;
  keyset_append "exit" (KEY_EXIT term).

(** The attributes as lines 34-41 set them. *)
Definition created (w : AnsiWindow) (ks : Keyset) : Lightbar :=
  {| window := w; _vitem_idx := 0; _vitem_lastidx := 0; _vitem_shift := 0;
     _vitem_lastshift := 0; _moved := false; _quit := false; content := [];
     keyset := ks |}.

(** Line 33, [bbs.ansiwin.AnsiWindow.__init__(height, width, yloc, xloc)].
    The initializer is fetched from the class, not from [self], and is
    handed the four numbers alone: the height stands where the instance is
    expected. Python 2 refuses an unbound method whose first argument is no
    instance of its class and Python 3 finds the last argument missing, so
    the call raises [TypeError] before the body of the initializer runs,
    whatever the numbers are. *)
Definition AnsiWindow_init (height width yloc xloc : Z) : outcome AnsiWindow :=
  Raise (TypeError "AnsiWindow.__init__ called without an instance").

(** Lines 29-42. The state is the shared [NETHACK_KEYSET]; the window is
    what the base class would have derived from the geometry. *)
Definition __init__ (term : Terminal) (height width yloc xloc : Z)
    : SE Keyset Lightbar :=
  w <- lift (AnsiWindow_init height width yloc xloc) ;;
  init_keystrokes term ;;
  ks <- get ;;
  ret (created w ks).

(** *** The selector invariant and the states a host can reach *)

(** The invariant of the data model: the scroll offset is not negative and,
    over content that is not empty, the selected row lies in the window and
    the absolute index lies in the content. *)
Definition invariant (self : Lightbar) : Prop :=
  0 <= vitem_shift self /\
  (content self <> [] ->
   0 <= vitem_idx self < visible_height (window self) /\
   vitem_shift self + vitem_idx self < len self).


(** [n] Down commands in a row, whatever each of them returns or raises. *)
Definition downs (n : nat) (self : Lightbar) : Lightbar :=
  Nat.iter n (fun s => snd (move_down s)) self.

(** The dict [NETHACK_KEYSET] after any number of calls of the constructor
    and of [init_keystrokes]. *)
Inductive keyset_reachable : Keyset -> Prop :=
| keyset_initial : keyset_reachable NETHACK_KEYSET
| keyset_construct (term : Terminal) (height width yloc xloc : Z) (ks : Keyset) :
    keyset_reachable ks ->
    keyset_reachable (snd (__init__ term height width yloc xloc ks))
| keyset_init_keystrokes (term : Terminal) (ks : Keyset) :
    keyset_reachable ks ->
    keyset_reachable (snd (init_keystrokes term ks)).

(** A method that leaves [_moved] as it found it. *)
Definition keeps_moved {A} (m : SE Lightbar A) : Prop :=
  forall self, _moved (snd (m self)) = _moved self.

(** A method that returns or raises from every state. *)
Definition ends {A} (m : SE Lightbar A) : Prop :=
  forall self, fst (m self) <> Unfinished.

(** *** Sample instances *)

(** A window of five visible rows. *)
Definition window5 : AnsiWindow :=
  {| visible_height := 5; visible_width := 20; visible_bottom := 5;
     ypadding := 1; xpadding := 1 |}.

Definition three_items : list string := ["a"; "b"; "c"]%string.
Definition ten_items : list string :=
  ["0"; "1"; "2"; "3"; "4"; "5"; "6"; "7"; "8"; "9"]%string.

(** Three items in the five-row window, the first one selected. *)
Definition on_first_of_three : Lightbar :=
  with_content three_items (created window5 NETHACK_KEYSET).

(** Three items in the five-row window, the last one selected. *)
Definition on_last_of_three : Lightbar :=
  with_vitem_idx 2 on_first_of_three.

(** Ten items in the five-row window, item 9 selected on the last page. *)
Definition on_last_of_ten : Lightbar :=
  with_vitem_shift 5 (with_vitem_idx 4 (with_content ten_items (created window5 NETHACK_KEYSET))).

(** *** The navigation methods no keystroke reaches *)

(** Lines 263-273. *)
Definition _up : SE Lightbar unibytes :=
  self <- get ;;
  if 0 =? index self then ret []
  else
    (if vitem_idx self >=? 1 then
       vitem_idx_set (vitem_idx self - 1)
     else if vitem_shift self >? 0 then
       vitem_shift_set (vitem_shift self - 1)
     else ret tt) ;;
    ret [].

(** Lines 275-290. *)
Definition _pagedown : SE Lightbar unibytes :=
  self <- get ;;
  if len self <? visible_height (window self) then
    vitem_idx_set (len self - 1) ;; ret []
  else if vitem_shift self + visible_height (window self)
          <? len self - visible_height (window self) then
    vitem_shift_set (vitem_shift self + visible_height (window self)) ;; ret []
  else if negb (vitem_shift self =? len self - visible_height (window self)) then
    vitem_shift_set (len self - visible_height (window self)) ;; ret []
  else move_end.

(** Lines 292-305. The method returns what [move_home] returns on the first
    page and [None] (the bare [return] of line 305) otherwise. *)
Definition _pageup : SE Lightbar (option unibytes) :=
  self <- get ;;
  (if len self <? visible_height (window self) - 1 then vitem_idx_set 0
   else ret tt) ;;
  self <- get ;;
  if vitem_shift self - visible_height (window self) >? 0 then
    vitem_shift_set (vitem_shift self - visible_height (window self)) ;; ret None
  else if vitem_shift self >? 0 then
    vitem_shift_set 0 ;; ret None
  else
    r <- move_home ;; ret (Some r).

(** *** Vocabulary of the further properties *)

(** A method that leaves the observation [f] of the instance as it found
    it, however it ends. *)
Definition keeps {A X} (f : Lightbar -> X) (m : SE Lightbar A) : Prop :=
  forall self, f (snd (m self)) = f self.

(** A method that, when it returns, has left the observation [f] as it
    found it. *)
Definition returns_keeping {A X} (f : Lightbar -> X) (m : SE Lightbar A) : Prop :=
  forall self a self', m self = (Ret a, self') -> f self' = f self.

(** A method whose only exception is [e0]. *)
Definition raises_only {A} (e0 : exn) (m : SE Lightbar A) : Prop :=
  forall self e self', m self = (Raise e, self') -> e = e0.

(** The row, the offset and their previous values. *)
Definition cursor (self : Lightbar) : Z * Z * Z * Z :=
  (_vitem_idx self, _vitem_shift self, _vitem_lastidx self, _vitem_lastshift self).

(** What a keystroke has no business changing. *)
Definition surroundings (self : Lightbar) : AnsiWindow * list string * Keyset :=
  (window self, content self, keyset self).

(** The names [process_keystroke] looks up, in the order of lines 121-133. *)
Definition bindings : list string :=
  ["home"; "end"; "pgup"; "pgdown"; "up"; "down"; "exit"]%string.

(** [key] is in none of the lists the key set holds under [names]. *)
Definition unbound (ks : Keyset) (names : list string) (key : pyval) : Prop :=
  forall name l, In name names -> ks !! name = Some l -> py_in key l = false.

(** The shared key set after [n] calls of [init_keystrokes]. *)
Definition init_keystrokes_calls (term : Terminal) (n : nat) (ks : Keyset) : Keyset :=
  Nat.iter n (fun ks => snd (init_keystrokes term ks)) ks.

(** Whether a piece of a redraw is a highlighted entry. *)
Definition highlighted (r : RowRender) : bool :=
  match r with
  | Entry _ _ h => h
  | Fill _ => false
  end.

End lightbar.

(** ** bbs/input.py *)

Module input.

(** [curses.ascii.BEL] and [curses.ascii.isprint]. *)
Definition BEL : Z := 7.
Definition isprint (c : Z) : bool := (32 <=? c) && (c <=? 126).

(** [ord(char)]: defined on a string of one character. *)
Definition ord (char : pyval) : outcome Z :=
  match char with
  | PyStr (String c EmptyString) => Ret (Z.of_nat (nat_of_ascii c))
  | _ => Raise (TypeError "ord() expected a character")
  end.

(** [isinstance(char, int)] *)
Definition is_int (char : pyval) : bool :=
  match char with
  | PyInt _ => true
  | _ => false
  end.

Definition newline : string := String (ascii_of_nat 10) EmptyString.
Definition backspace : string := String (ascii_of_nat 8) EmptyString.

(** [value[:-1]] *)
Fixpoint drop_last (value : string) : string :=
  match value with
  | EmptyString => EmptyString
  | String c EmptyString => EmptyString
  | String c rest => String c (drop_last rest)
  end.

(** [hidden * n] *)
Fixpoint repeat_string (hidden : string) (n : nat) : string :=
  match n with
  | O => EmptyString
  | S n' => (hidden ++ repeat_string hidden n')%string
  end.

(** [value + char] for a keystroke that [ord] accepted. *)
Definition append_char (value : string) (char : pyval) : string :=
  match char with
  | PyStr s => (value ++ s)%string
  | _ => value
  end.

(** A string is true when it is not empty. *)
Definition truthy (s : string) : bool := negb (String.eqb s "").

(** The terminal output so far: the arguments of the calls of [echo]. *)
Abbreviation Echoed := (list pyval).

Definition echo (x : pyval) : SE Echoed unit := modify (fun out => out ++ [x]).

(** What [readlineevent] returns: [(value, event, data)], where [value] is
    [None] after the exit key. *)
Abbreviation Result := (option string * string * pyval)%type.

(** Lines 38-54, the branches that keep the loop running: one keystroke that
    is neither the exit key nor the enter key, applied to the buffer. *)
Definition keystroke (term : Terminal) (width : Z) (hidden paddchar : string)
    (silent : bool) (value : string) (char : pyval) : SE Echoed string :=
  if pyval_eqb char (KEY_BACKSPACE term) then
    if Z.of_nat (String.length value) >? 0 then
      echo (PyStr (backspace ++ paddchar ++ backspace)) ;;
      ret (drop_last value)
    else ret value
  else if is_int char then ret value
  else
    printable <- (if Z.of_nat (String.length value) <? width
                  then c <- lift (ord char) ;; ret (isprint c)
                  else ret false) ;;
    if printable : bool then
      echo (if truthy hidden then PyStr hidden else char) ;;
      ret (append_char value char)
    else if negb silent then
      echo (PyInt BEL) ;;
      ret value
    else ret value.

(** Lines 23-56, the loop over the events the session delivers, in order;
    [read_event] waits when none is pending. *)
Fixpoint read_loop (term : Terminal) (width : Z) (hidden paddchar : string)
    (interactive silent : bool) (pending : list (string * pyval))
    (value : string) : SE Echoed Result :=
  match pending with
  | [] => lift Unfinished
  | (event, char) :: pending' =>
      if negb (String.eqb event "input") then ret (Some value, event, char)
      else if pyval_eqb char (KEY_EXIT term) then ret (None, "input"%string, PyNone)
      else if pyval_eqb char (KEY_ENTER term) then
        ret (Some value, "input"%string, PyStr newline)
      else
        value' <- keystroke term width hidden paddchar silent value char ;;
        if interactive then ret (Some value', "input"%string, PyNone)
        else read_loop term width hidden paddchar interactive silent pending' value'
  end.

(** Lines 14-56. [pending] is what [getsession().read_event] will deliver. *)
Definition readlineevent (term : Terminal) (width : Z) (value hidden paddchar : string)
    (interactive silent : bool) (pending : list (string * pyval)) : SE Echoed Result :=
  (if negb (truthy hidden) && truthy value then echo (PyStr value)
   else if truthy value then
     echo (PyStr (repeat_string hidden (String.length value)))
   else ret tt) ;;
  read_loop term width hidden paddchar interactive silent pending value.

(** Lines 9-12. *)
Definition readline (term : Terminal) (width : Z) (value hidden paddchar : string)
    (interactive silent : bool) (pending : list (string * pyval))
    : SE Echoed (option string) :=
  r <- readlineevent term width value hidden paddchar interactive silent pending ;;
  ret (fst (fst r)).

(** A keystroke event carrying [char]. *)
Definition key_event (char : pyval) : string * pyval := ("input"%string, char).

(** [char] is none of the keys the editor treats specially. *)
Definition ordinary (term : Terminal) (char : pyval) : bool :=
  negb (pyval_eqb char (KEY_EXIT term))
  && negb (pyval_eqb char (KEY_ENTER term))
  && negb (pyval_eqb char (KEY_BACKSPACE term)).

(** A terminal with the key codes of curses. *)
Definition curses_terminal : Terminal :=
  {| KEY_HOME := PyInt 262; KEY_END := PyInt 360; KEY_PPAGE := PyInt 339;
     KEY_NPAGE := PyInt 338; KEY_KEY_UP := PyInt 259; KEY_DOWN := PyInt 258;
     KEY_EXIT := PyInt 361; KEY_ENTER := PyInt 343; KEY_BACKSPACE := PyInt 263 |}.

(** The keystroke of one character. *)
Definition char_key (c : ascii) : pyval := PyStr (String c EmptyString).

(** What typing [c] echoes: the mask when there is one, [c] otherwise. *)
Definition typed_echo (hidden : string) (c : ascii) : pyval :=
  if truthy hidden then PyStr hidden else char_key c.

(** What lines 18-21 echo before the first event is read. *)
Definition initial_echo (hidden value : string) : Echoed :=
  if truthy value then
    [PyStr (if truthy hidden then repeat_string hidden (String.length value) else value)]
  else [].

(** [c] is a character the editor accepts on this terminal: printable and
    none of the special keys. *)
Definition accepted (term : Terminal) (c : ascii) : bool :=
  ordinary term (char_key c) && isprint (Z.of_nat (nat_of_ascii c)).

End input.

Import lightbar input.

(** ** Properties of the lightbar *)

Section lightbar_properties.

(** *** The setters, run *)

Lemma vitem_idx_set_run (value : Z) (self : Lightbar) :
  vitem_idx_set value self =
  if _vitem_idx self =? value then (Ret tt, self)
  else (Raise (AttributeError "moved"),
        with_vitem_idx value (with_vitem_lastidx (_vitem_idx self) self)).
Proof.
  unfold vitem_idx_set, bind, get, modify, moved_set, raise, ret.
  destruct (_vitem_idx self =? value); reflexivity.
Qed.

Lemma vitem_shift_set_run (value : Z) (self : Lightbar) :
  vitem_shift_set value self =
  if _vitem_shift self =? value then (Ret tt, self)
  else (Raise (AttributeError "moved"),
        with_vitem_shift value (with_vitem_lastshift (_vitem_shift self) self)).
Proof.
  unfold vitem_shift_set, bind, get, modify, moved_set, raise, ret.
  destruct (_vitem_shift self =? value); reflexivity.
Qed.

(** [move_down], run: past the guard of line 255 the command writes the new
    row or the new offset and then leaves through the assignment to
    [moved]. *)
Lemma move_down_run (self : Lightbar) :
  move_down self =
  if index self >=? len self then (Ret [], self)
  else if vitem_idx self + 1 <? visible_bottom (window self) then
    (Raise (AttributeError "moved"),
     with_vitem_idx (vitem_idx self + 1) (with_vitem_lastidx (vitem_idx self) self))
  else if vitem_idx self <? len self then
    (Raise (AttributeError "moved"),
     with_vitem_shift (vitem_shift self + 1)
       (with_vitem_lastshift (vitem_shift self) self))
  else (Ret [], self).
Proof.
  unfold move_down, bind, get.
  destruct (index self >=? len self); [reflexivity|].
  destruct (vitem_idx self + 1 <? visible_bottom (window self)).
  - rewrite vitem_idx_set_run. unfold vitem_idx.
    replace (_vitem_idx self =? _vitem_idx self + 1) with false
      by (symmetry; apply Z.eqb_neq; lia).
    reflexivity.
  - destruct (vitem_idx self <? len self); [|reflexivity].
    rewrite vitem_shift_set_run. unfold vitem_shift.
    replace (_vitem_shift self =? _vitem_shift self + 1) with false
      by (symmetry; apply Z.eqb_neq; lia).
    reflexivity.
Qed.

(** *** What never touches [_moved] *)

Lemma keeps_moved_ret {A} (a : A) : keeps_moved (ret a).
Proof. intros self; reflexivity. Qed.

Lemma keeps_moved_raise {A} (e : exn) : keeps_moved (raise (A := A) e).
Proof. intros self; reflexivity. Qed.

Lemma keeps_moved_lift {A} (o : outcome A) : keeps_moved (lift o).
Proof. intros self; reflexivity. Qed.

Lemma keeps_moved_get : keeps_moved get.
Proof. intros self; reflexivity. Qed.

Lemma keeps_moved_bind {A B} (m : SE Lightbar A) (k : A -> SE Lightbar B) :
  keeps_moved m -> (forall a, keeps_moved (k a)) -> keeps_moved (bind m k).
Proof.
  intros Hm Hk self. unfold bind. specialize (Hm self).
  destruct (m self) as [[a| e |] self']; simpl in *; try assumption.
  rewrite Hk. assumption.
Qed.

Lemma keeps_moved_if {A} (b : bool) (m1 m2 : SE Lightbar A) :
  keeps_moved m1 -> keeps_moved m2 -> keeps_moved (if b then m1 else m2).
Proof. destruct b; auto. Qed.

Lemma keeps_moved_vitem_idx_set (value : Z) : keeps_moved (vitem_idx_set value).
Proof.
  intros self. rewrite vitem_idx_set_run.
  destruct (_vitem_idx self =? value); reflexivity.
Qed.

Lemma keeps_moved_vitem_shift_set (value : Z) : keeps_moved (vitem_shift_set value).
Proof.
  intros self. rewrite vitem_shift_set_run.
  destruct (_vitem_shift self =? value); reflexivity.
Qed.

Lemma keeps_moved_with_quit (b : bool) : keeps_moved (modify (with_quit b)).
Proof. intros self; reflexivity. Qed.

Create HintDb moved discriminated.
#[local] Hint Resolve keeps_moved_ret keeps_moved_raise keeps_moved_lift keeps_moved_get
  keeps_moved_vitem_idx_set keeps_moved_vitem_shift_set keeps_moved_with_quit : moved.

Ltac keeps_moved :=
  repeat first
    [ apply keeps_moved_bind; [| intro]
    | apply keeps_moved_if
    | solve [auto with moved] ].

Lemma keeps_moved_move_home : keeps_moved move_home.
Proof. unfold move_home. keeps_moved. Qed.

Lemma keeps_moved_move_end : keeps_moved move_end.
Proof. unfold move_end. keeps_moved. Qed.

Lemma keeps_moved_move_down : keeps_moved move_down.
Proof. unfold move_down. keeps_moved. Qed.

Lemma keeps_moved_keys (name : string) : keeps_moved (keys name).
Proof. unfold keys. keeps_moved. Qed.

#[local] Hint Resolve keeps_moved_move_home keeps_moved_move_end keeps_moved_move_down
  keeps_moved_keys : moved.

(** Whatever the key and the state, [process_keystroke] leaves [moved]
    false: line 119 clears it and nothing after that line can set it. *)
Lemma process_keystroke_moved (key : pyval) (self : Lightbar) :
  moved (snd (process_keystroke key self)) = false.
Proof.
  unfold process_keystroke, moved.
  change (bind (modify (with_moved false)) ?k self) with (k tt (with_moved false self)).
  match goal with |- _moved (snd (?m _)) = _ =>
    assert (Hk : keeps_moved m) end.
  { unfold move_pageup, move_pagedown, move_up. keeps_moved. }
  rewrite Hk. reflexivity.
Qed.

(** *** Down *)

(** One Down command from a state whose row and offset are not negative and
    whose absolute index lies in the content: the absolute index grows by
    one, whichever of the two branches is taken. *)
Lemma move_down_step (self : Lightbar) :
  0 <= vitem_idx self -> 0 <= vitem_shift self -> index self < len self ->
  let self' := snd (move_down self) in
  index self' = index self + 1 /\
  0 <= vitem_idx self' /\ 0 <= vitem_shift self' /\
  len self' = len self.
Proof.
  intros Hi Hs Hlt. rewrite move_down_run.
  unfold index, vitem_idx, vitem_shift in *.
  destruct (Z.geb_spec (_vitem_shift self + _vitem_idx self) (len self)); [lia|].
  destruct (_vitem_idx self + 1 <? visible_bottom (window self)).
  - cbn. unfold len; cbn. lia.
  - destruct (Z.ltb_spec (_vitem_idx self) (len self)); [|lia].
    cbn. unfold len; cbn. lia.
Qed.

(** Past the end of the content Down does nothing. *)
Lemma move_down_beyond (self : Lightbar) :
  len self <= index self -> move_down self = (Ret [], self).
Proof.
  intros H. rewrite move_down_run.
  destruct (Z.geb_spec (index self) (len self)); [reflexivity|lia].
Qed.

(** Away from the last item Down does what the state machine says, with
    [visible_bottom] of the base class as the height of the window: the row
    moves while there is room below it, the page scrolls otherwise. *)
Lemma move_down_inside (self : Lightbar) :
  invariant self -> content self <> [] -> index self < len self - 1 ->
  let self' := snd (move_down self) in
  if vitem_idx self + 1 <? visible_bottom (window self)
  then vitem_idx self' = vitem_idx self + 1 /\ vitem_shift self' = vitem_shift self
  else vitem_shift self' = vitem_shift self + 1 /\ vitem_idx self' = vitem_idx self.
Proof.
  intros [Hs Hinv] Hne Hlt. rewrite move_down_run.
  unfold index, vitem_idx, vitem_shift in *.
  destruct (Hinv Hne) as [Hrow Habs].
  destruct (Z.geb_spec (_vitem_shift self + _vitem_idx self) (len self)); [lia|].
  destruct (_vitem_idx self + 1 <? visible_bottom (window self)); [cbn; lia|].
  destruct (Z.ltb_spec (_vitem_idx self) (len self)); [cbn; lia|lia].
Qed.

(** C2 (the code departs from the claim). On the last item Down is not a
    no-op: from every state that satisfies the invariant over content that
    is not empty and whose absolute index is [len(content) - 1], [move_down]
    changes the state and leaves the absolute index at [len(content)], one
    past the last item. *)
Theorem move_down_on_last_item (self : Lightbar) :
  invariant self -> content self <> [] -> index self = len self - 1 ->
  let self' := snd (move_down self) in
  self' <> self /\ index self' = len self.
Proof.
  intros [Hs Hinv] Hne Hlast.
  destruct (Hinv Hne) as [Hrow Habs].
  destruct (move_down_step self) as (Hidx & _ & _ & _);
    [unfold vitem_idx in *; lia | assumption | lia |].
  cbv zeta. split; [|lia].
  intros E. rewrite E in Hidx. lia.
Qed.

Lemma move_down_on_last_item_witness :
  snd (move_down on_last_of_three) <> on_last_of_three /\
  index (snd (move_down on_last_of_three)) = 3.
Proof.
  apply (move_down_on_last_item on_last_of_three).
  - split; [vm_compute; discriminate|].
    intros _. vm_compute. repeat split; discriminate.
  - discriminate.
  - reflexivity.
Defined.

(** Repeated Down commands walk the absolute index up one item at a time for
    as long as it lies in the content. *)
Lemma downs_index (n : nat) (self : Lightbar) :
  0 <= vitem_idx self -> 0 <= vitem_shift self ->
  index self + Z.of_nat n <= len self ->
  index (downs n self) = index self + Z.of_nat n /\
  0 <= vitem_idx (downs n self) /\ 0 <= vitem_shift (downs n self) /\
  len (downs n self) = len self.
Proof.
  intros Hi Hs. induction n as [|n IH]; intros Hle.
  - cbn. repeat split; lia.
  - destruct IH as (Hidx & Hi' & Hs' & Hlen); [lia|].
    change (downs (S n) self) with (snd (move_down (downs n self))).
    destruct (move_down_step (downs n self)) as (H1 & H2 & H3 & H4); try assumption; [lia|].
    cbv zeta in *. repeat split; try assumption; lia.
Qed.

(** From a state that satisfies the invariant over content that is not
    empty, fewer than [len(content)] Down commands reach the last item; the
    next one steps past it, and only then do further ones change nothing. *)
Lemma downs_reach_last_and_overshoot (self : Lightbar) :
  invariant self -> content self <> [] ->
  let n := Z.to_nat (len self - 1 - index self) in
  (n < length (content self))%nat /\
  index (downs n self) = len self - 1 /\
  index (downs (S n) self) = len self /\
  forall m, downs (m + S n) self = downs (S n) self.
Proof.
  intros [Hs Hinv] Hne. destruct (Hinv Hne) as [Hrow Habs].
  unfold vitem_idx, vitem_shift in *.
  set (n := Z.to_nat (len self - 1 - index self)). cbv zeta.
  assert (Hn : Z.of_nat n = len self - 1 - index self)
    by (unfold n, index, vitem_idx, vitem_shift; lia).
  destruct (downs_index n self) as (H1 & _); [unfold vitem_idx; lia | assumption | lia |].
  destruct (downs_index (S n) self) as (H2 & _ & _ & H3);
    [unfold vitem_idx; lia | assumption | lia |].
  repeat split.
  - unfold len, index, vitem_idx, vitem_shift in *. lia.
  - lia.
  - lia.
  - induction m as [|m IH]; [reflexivity|].
    change (downs (S m + S n) self) with (snd (move_down (downs (m + S n) self))).
    rewrite IH, move_down_beyond; [reflexivity|]. lia.
Qed.

(** C6 (the code departs from the claim). Over three items in a five-row
    window, two Down commands from the first item reach the last item
    (absolute index 2), and the third Down command is not a no-op: it
    changes the state and leaves the absolute index at 3, outside the
    content. *)
Theorem downs_step_past_last_item :
  len on_first_of_three = 3 /\
  index (downs 2 on_first_of_three) = 2 /\
  index (downs 3 on_first_of_three) = 3 /\
  downs 3 on_first_of_three <> downs 2 on_first_of_three.
Proof.
  repeat split; try reflexivity.
  intros E. apply (f_equal index) in E. vm_compute in E. discriminate.
Qed.

(** *** Re-normalization ends *)

Lemma ends_ret {A} (a : A) : ends (ret a).
Proof. intros self; discriminate. Qed.

Lemma ends_get : ends get.
Proof. intros self; discriminate. Qed.

Lemma ends_modify (f : Lightbar -> Lightbar) : ends (modify f).
Proof. intros self; discriminate. Qed.

Lemma ends_bind {A B} (m : SE Lightbar A) (k : A -> SE Lightbar B) :
  ends m -> (forall a, ends (k a)) -> ends (bind m k).
Proof.
  intros Hm Hk self. unfold bind. specialize (Hm self).
  destruct (m self) as [[a| e |] self']; cbn in *; [apply Hk | discriminate | congruence].
Qed.

Lemma ends_if {A} (b : bool) (m1 m2 : SE Lightbar A) :
  ends m1 -> ends m2 -> ends (if b then m1 else m2).
Proof. destruct b; auto. Qed.

Lemma ends_vitem_idx_set (value : Z) : ends (vitem_idx_set value).
Proof.
  intros self. rewrite vitem_idx_set_run. destruct (_ =? _); discriminate.
Qed.

Lemma ends_vitem_shift_set (value : Z) : ends (vitem_shift_set value).
Proof.
  intros self. rewrite vitem_shift_set_run. destruct (_ =? _); discriminate.
Qed.

(** A loop whose body raises whenever it is entered needs one iteration of
    budget. *)
Lemma ends_while_raising (cond : Lightbar -> bool) (body : SE Lightbar unit) (fuel : nat) :
  (forall self, exists e, fst (body self) = Raise e) ->
  ends (while (S fuel) cond body).
Proof.
  intros Hbody self. cbn [while]. destruct (cond self); [|discriminate].
  destruct (Hbody self) as [e He]. unfold bind.
  destruct (body self) as [[[]| e' |] self']; cbn in He; discriminate.
Qed.

(** Both loops of [_chk_bounds] start by writing a value that differs from
    the current one, so their first iteration leaves through the setter:
    with a budget of one iteration or more, [_chk_bounds] returns or
    raises. *)
Lemma _chk_bounds_ends (fuel : nat) : ends (_chk_bounds (S fuel)).
Proof.
  unfold _chk_bounds.
  apply ends_bind; [apply ends_get | intros self0].
  apply ends_bind; [| intros _; apply ends_bind; [| intros _]].
  - apply ends_if; [|apply ends_ret].
    apply ends_bind; [| intros _].
    + apply ends_bind; [apply ends_get | intros ?; apply ends_vitem_shift_set].
    + apply ends_bind; [apply ends_get | intros ?; apply ends_vitem_idx_set].
  - apply ends_while_raising. intros self. unfold bind, get.
    rewrite vitem_shift_set_run.
    destruct (Z.eqb_spec (_vitem_shift self) (vitem_shift self - 1));
      [unfold vitem_shift in *; lia|]. eexists; reflexivity.
  - apply ends_while_raising. intros self. unfold bind, get.
    rewrite vitem_idx_set_run.
    destruct (Z.eqb_spec (_vitem_idx self) (vitem_idx self - 1));
      [unfold vitem_idx in *; lia|]. eexists; reflexivity.
Qed.

(** So does a content replacement. *)
Lemma update_ends (fuel : nat) (unicodelist : option (list string)) :
  ends (update (S fuel) unicodelist).
Proof.
  unfold update, position_set.
  apply ends_bind; [apply ends_modify | intros _].
  apply ends_bind; [apply ends_get | intros self0].
  apply ends_bind; [apply ends_vitem_idx_set | intros _].
  apply ends_bind; [apply ends_vitem_shift_set | intros _].
  apply _chk_bounds_ends.
Qed.

(** *** Replacing the content *)

(** C3 (the code departs from the claim). From a selector on item 9 of 10 in
    a five-row window, [update(unicodelist)] with a list of three items does
    not end on absolute index 2. Reading the attribute [update] runs the body
    without the list: the content becomes the single entry [u''], line 236
    writes the offset [1 - 5 + 1 = -3], and the setter leaves through the
    assignment to [moved], with the row still 4 and the absolute index 1.
    The body handed the list itself stops at the same assignment, with
    offset [-1], row 4 and absolute index 3, which is outside the three
    items. *)
Theorem update_ten_to_three (fuel : nat) (unicodelist : list string) (self : Lightbar) :
  length (content self) = 10%nat -> visible_height (window self) = 5 ->
  vitem_shift self = 5 -> vitem_idx self = 4 ->
  length unicodelist = 3%nat ->
  let called := update_call fuel unicodelist self in
  let body := update fuel (Some unicodelist) self in
  (fst called = Raise (AttributeError "moved") /\
   content (snd called) = [""%string] /\
   vitem_shift (snd called) = -3 /\ vitem_idx (snd called) = 4 /\
   index (snd called) = 1) /\
  (fst body = Raise (AttributeError "moved") /\
   content (snd body) = unicodelist /\
   vitem_shift (snd body) = -1 /\ vitem_idx (snd body) = 4 /\
   index (snd body) = 3).
Proof.
  destruct self as [[vh vw vb yp xp] i li s ls m q c ks].
  unfold vitem_shift, vitem_idx, index. cbn [window visible_height _vitem_shift _vitem_idx content].
  intros _ -> -> -> H3.
  destruct unicodelist as [|a [|b [|d [|? ?]]]]; try discriminate.
  cbv zeta. split; repeat split; reflexivity.
Qed.

Lemma update_ten_to_three_witness :
  (fst (update_call 1 three_items on_last_of_ten) = Raise (AttributeError "moved") /\
   content (snd (update_call 1 three_items on_last_of_ten)) = [""%string] /\
   vitem_shift (snd (update_call 1 three_items on_last_of_ten)) = -3 /\
   vitem_idx (snd (update_call 1 three_items on_last_of_ten)) = 4 /\
   index (snd (update_call 1 three_items on_last_of_ten)) = 1) /\
  (fst (update 1 (Some three_items) on_last_of_ten) = Raise (AttributeError "moved") /\
   content (snd (update 1 (Some three_items) on_last_of_ten)) = three_items /\
   vitem_shift (snd (update 1 (Some three_items) on_last_of_ten)) = -1 /\
   vitem_idx (snd (update 1 (Some three_items) on_last_of_ten)) = 4 /\
   index (snd (update 1 (Some three_items) on_last_of_ten)) = 3).
Proof.
  apply (update_ten_to_three 1 three_items on_last_of_ten); reflexivity.
Defined.

(** *** The moved flag and the quick redraw *)

(** C4 (the code departs from the claim). The Down key pressed on the first
    of three items changes the selected row from 0 to 1, the call leaves
    through the assignment to the read-only [moved], and the flag is false
    after it. *)
Theorem keystroke_moves_row_flag_false :
  let run := process_keystroke (PyStr "j") on_first_of_three in
  fst run = Raise (AttributeError "moved") /\
  vitem_idx on_first_of_three = 0 /\ vitem_idx (snd run) = 1 /\
  vitem_shift (snd run) = vitem_shift on_first_of_three /\
  moved (snd run) = false.
Proof. cbv zeta. repeat split; reflexivity. Qed.

(** After any keystroke the quick redraw is the full redraw or nothing: the
    branch of lines 91-95 that redraws two rows needs [moved]. *)
Lemma refresh_quick_after_keystroke (key : pyval) (self : Lightbar) :
  let self' := snd (process_keystroke key self) in
  refresh_quick self' = refresh self' \/ refresh_quick self' = [].
Proof.
  cbv zeta. unfold refresh_quick. rewrite process_keystroke_moved.
  destruct (_ && _); auto.
Qed.

(** A Down command that changed the offset, from an offset other than -1,
    is followed by the full redraw, one piece for each row below
    [visible_bottom]. *)
Lemma refresh_quick_after_scroll (self : Lightbar) :
  let self' := snd (move_down self) in
  vitem_shift self' <> vitem_shift self -> vitem_shift self <> -1 ->
  refresh_quick self' = refresh self' /\
  length (refresh self') = Z.to_nat (visible_bottom (window self)).
Proof.
  cbv zeta. rewrite move_down_run.
  destruct (index self >=? len self); [cbn; congruence|].
  destruct (vitem_idx self + 1 <? visible_bottom (window self));
    [unfold vitem_shift; cbn; congruence|].
  destruct (vitem_idx self <? len self); [|cbn; congruence].
  cbn [snd]. intros _ Hm1. split.
  - unfold refresh_quick, vitem_shift in *. cbn.
    destruct (Z.eqb_spec (_vitem_shift self) (_vitem_shift self + 1)); [lia|].
    destruct (Z.eqb_spec (_vitem_shift self) (-1)); [lia|]. reflexivity.
  - unfold refresh, range. cbn. rewrite !length_map, length_seq. reflexivity.
Qed.

(** A Down command that changed the row alone, in a state whose previous
    offset is still the one of an earlier scroll: the quick redraw is the
    full redraw here too, because nothing brings [_vitem_lastshift] back in
    line with the offset once the scroll has been drawn. *)
Lemma refresh_quick_stale_shift (self : Lightbar) :
  let self' := snd (move_down self) in
  _vitem_lastshift self <> vitem_shift self -> _vitem_lastshift self <> -1 ->
  vitem_idx self' <> vitem_idx self ->
  vitem_shift self' = vitem_shift self /\ refresh_quick self' = refresh self'.
Proof.
  cbv zeta. rewrite move_down_run. intros Hstale Hm1.
  destruct (index self >=? len self); [cbn; congruence|].
  destruct (vitem_idx self + 1 <? visible_bottom (window self)).
  - intros _. split; [reflexivity|].
    unfold refresh_quick, vitem_shift in *. cbn.
    destruct (Z.eqb_spec (_vitem_lastshift self) (_vitem_shift self)); [lia|].
    destruct (Z.eqb_spec (_vitem_lastshift self) (-1)); [lia|]. reflexivity.
  - destruct (vitem_idx self <? len self); unfold vitem_idx; cbn; congruence.
Qed.

(** C5 (the code departs from the claim). The Down key pressed on the first
    of three items in a five-row window changes the selected row from 0 to 1
    and leaves the offset alone, and the quick redraw asked for afterwards
    is empty: no piece for the old row, none for the new one. *)
Theorem down_then_refresh_quick_empty :
  let self' := snd (process_keystroke (PyStr "j") on_first_of_three) in
  vitem_idx on_first_of_three = 0 /\ vitem_idx self' = 1 /\
  vitem_shift self' = vitem_shift on_first_of_three /\
  snd (move_down on_first_of_three) = self' /\
  refresh_quick self' = [].
Proof. cbv zeta. repeat split; reflexivity. Qed.

(** *** The selected entry *)

(** C7. Over empty content [selection] raises [IndexError] and returns no
    value; over content that is not empty, in a state that satisfies the
    invariant, it returns the entry at [vitem_shift + vitem_idx]. Neither
    call changes the selector. *)
Theorem selection_spec (self : Lightbar) :
  (content self = [] -> selection self = (Raise IndexError, self)) /\
  (content self <> [] -> invariant self ->
   exists entry,
     content self !! Z.to_nat (vitem_shift self + vitem_idx self) = Some entry /\
     selection self = (Ret entry, self)).
Proof.
  unfold selection, bind, get, lift, getitem, index. split.
  - intros ->. change (Z.of_nat (length (@nil string))) with 0.
    set (j := if _ <? 0 then _ else _).
    destruct (Z.leb_spec 0 j), (Z.ltb_spec j 0); cbn; try reflexivity; lia.
  - intros Hne [Hs Hinv]. destruct (Hinv Hne) as [Hrow Habs]. unfold len in Habs.
    set (i := vitem_shift self + vitem_idx self) in *.
    destruct (Z.ltb_spec i 0); [lia|].
    destruct (Z.leb_spec 0 i); [|lia].
    destruct (Z.ltb_spec i (Z.of_nat (length (content self)))); [|lia].
    cbn. destruct (content self !! Z.to_nat i) as [entry|] eqn:Hnth.
    + exists entry. split; reflexivity.
    + apply lookup_ge_None in Hnth. lia.
Qed.

Lemma selection_spec_witness :
  selection (created window5 NETHACK_KEYSET)
    = (Raise IndexError, created window5 NETHACK_KEYSET) /\
  exists entry,
    content on_last_of_ten
      !! Z.to_nat (vitem_shift on_last_of_ten + vitem_idx on_last_of_ten) = Some entry /\
    selection on_last_of_ten = (Ret entry, on_last_of_ten).
Proof.
  split.
  - apply (proj1 (selection_spec (created window5 NETHACK_KEYSET))). reflexivity.
  - apply (proj2 (selection_spec on_last_of_ten)).
    + discriminate.
    + split; [vm_compute; discriminate|].
      intros _. vm_compute. repeat split; discriminate.
Defined.

(** *** Construction *)

(** [init_keystrokes] on a key set with [home] and [end] and without
    [pageup]: the first two lines append to the lists of [home] and [end],
    the third raises. *)
Lemma init_keystrokes_run (term : Terminal) (ks : Keyset) (lh le : list pyval) :
  ks !! "home"%string = Some lh -> ks !! "end"%string = Some le ->
  ks !! "pageup"%string = None ->
  init_keystrokes term ks =
  (Raise (KeyError "pageup"),
   <["end"%string := le ++ [KEY_END term]]> (<["home"%string := lh ++ [KEY_HOME term]]> ks)).
Proof.
  intros Hhome Hend Hpageup.
  unfold init_keystrokes, keyset_append, bind, get, lift, dict_getitem, modify.
  rewrite Hhome.
  rewrite lookup_insert_ne by discriminate. rewrite Hend.
  rewrite !lookup_insert_ne by discriminate. rewrite Hpageup. reflexivity.
Qed.

(** The constructor, run: line 33 raises and the shared key set is as it
    was. *)
Lemma __init___run (term : Terminal) (height width yloc xloc : Z) (ks : Keyset) :
  __init__ term height width yloc xloc ks =
  (Raise (TypeError "AnsiWindow.__init__ called without an instance"), ks).
Proof. reflexivity. Qed.

(** The shared key set never gains the keys [init_keystrokes] asks for. *)
Lemma keyset_reachable_keys (ks : Keyset) :
  keyset_reachable ks ->
  is_Some (ks !! "home"%string) /\ is_Some (ks !! "end"%string) /\
  ks !! "pageup"%string = None.
Proof.
  induction 1 as [| term height width yloc xloc ks Hks IH
                  | term ks Hks (Hhome & Hend & Hpageup)].
  - repeat split; try (eexists; reflexivity).
  - rewrite __init___run. exact IH.
  - destruct Hhome as [lh Hhome], Hend as [le Hend].
    rewrite (init_keystrokes_run term ks lh le) by assumption. cbn [snd].
    repeat split.
    + rewrite lookup_insert_ne by discriminate. rewrite lookup_insert_eq. eauto.
    + rewrite lookup_insert_eq. eauto.
    + rewrite !lookup_insert_ne by discriminate. assumption.
Qed.

(** C10 (as amended). Whatever the geometry, the terminal and the state of
    the shared key set, [Lightbar(height, width, yloc, xloc)] returns no
    instance: the call of the base initializer at line 33 raises
    [TypeError] and leaves the key set as it was, before [init_keystrokes]
    is reached. [init_keystrokes] itself, run on [NETHACK_KEYSET] after any
    number of earlier calls, raises [KeyError] for the key [pageup], which
    [NETHACK_KEYSET] does not have (it has [pgup] and [pgdown], and neither
    [pageup] nor [pagedown]). *)
Theorem Lightbar_init_fails (term : Terminal) (height width yloc xloc : Z)
    (ks : Keyset) :
  (forall self, fst (__init__ term height width yloc xloc ks) <> Ret self) /\
  (exists what,
     __init__ term height width yloc xloc ks = (Raise (TypeError what), ks)) /\
  (keyset_reachable ks ->
   fst (init_keystrokes term ks) = Raise (KeyError "pageup")) /\
  NETHACK_KEYSET !! "pageup"%string = None /\
  NETHACK_KEYSET !! "pagedown"%string = None /\
  is_Some (NETHACK_KEYSET !! "pgup"%string) /\
  is_Some (NETHACK_KEYSET !! "pgdown"%string).
Proof.
  rewrite __init___run. repeat split; try (eexists; reflexivity); try discriminate.
  intros Hks. destruct (keyset_reachable_keys ks Hks) as ([lh Hhome] & [le Hend] & Hpageup).
  rewrite (init_keystrokes_run term ks lh le) by assumption. reflexivity.
Qed.

Lemma Lightbar_init_fails_witness :
  (forall self, fst (__init__ curses_terminal 5 20 1 1 NETHACK_KEYSET) <> Ret self) /\
  fst (init_keystrokes curses_terminal NETHACK_KEYSET) = Raise (KeyError "pageup").
Proof.
  destruct (Lightbar_init_fails curses_terminal 5 20 1 1 NETHACK_KEYSET)
    as (Hnone & _ & Hkey & _).
  split; [exact Hnone|]. apply Hkey. exact keyset_initial.
Defined.

(** The error of a first construction, in a five-row window on a curses
    terminal, is the [TypeError] of line 33 and no [KeyError]. *)
Lemma Lightbar_init_no_key_error :
  (exists what,
     fst (__init__ curses_terminal 5 20 1 1 NETHACK_KEYSET) = Raise (TypeError what)) /\
  ~ (exists key,
       fst (__init__ curses_terminal 5 20 1 1 NETHACK_KEYSET) = Raise (KeyError key)).
Proof.
  split; [eexists; reflexivity|]. intros [key Hkey]. discriminate Hkey.
Qed.

End lightbar_properties.

(** ** Properties of the line editor *)

Section input_properties.

Variable term : Terminal.

Lemma pyval_eqb_refl (x : pyval) : pyval_eqb x x = true.
Proof. destruct x; cbn; [apply String.eqb_refl | apply Z.eqb_refl | reflexivity]. Qed.

Lemma ordinary_keys (char : pyval) :
  ordinary term char = true ->
  pyval_eqb char (KEY_EXIT term) = false /\
  pyval_eqb char (KEY_ENTER term) = false /\
  pyval_eqb char (KEY_BACKSPACE term) = false.
Proof.
  unfold ordinary. rewrite !andb_true_iff, !negb_true_iff. tauto.
Qed.

(** A printable character typed into a buffer with room: it is appended and
    echoed, as itself or as the mask. *)
Lemma keystroke_printable (width : Z) (hidden paddchar : string) (silent : bool)
    (value : string) (c : ascii) (out : Echoed) :
  ordinary term (PyStr (String c "")) = true ->
  isprint (Z.of_nat (nat_of_ascii c)) = true ->
  Z.of_nat (String.length value) < width ->
  keystroke term width hidden paddchar silent value (PyStr (String c "")) out =
  (Ret (value ++ String c "")%string,
   out ++ [if truthy hidden then PyStr hidden else PyStr (String c "")]).
Proof.
  intros Hord Hprint Hroom. apply ordinary_keys in Hord as (_ & _ & Hbs).
  unfold keystroke. rewrite Hbs. cbn [is_int].
  destruct (Z.ltb_spec (Z.of_nat (String.length value)) width); [|lia].
  unfold bind, lift, ret, ord, echo, modify. rewrite Hprint. reflexivity.
Qed.

(** A character typed into a full buffer: the buffer is kept, and the bell
    is echoed unless the editor is silent. *)
Lemma keystroke_full (width : Z) (hidden paddchar : string) (silent : bool)
    (value s : string) (out : Echoed) :
  ordinary term (PyStr s) = true ->
  width <= Z.of_nat (String.length value) ->
  keystroke term width hidden paddchar silent value (PyStr s) out =
  (Ret value, out ++ if silent then [] else [PyInt BEL]).
Proof.
  intros Hord Hfull. apply ordinary_keys in Hord as (_ & _ & Hbs).
  unfold keystroke. rewrite Hbs. cbn [is_int].
  destruct (Z.ltb_spec (Z.of_nat (String.length value)) width); [lia|].
  unfold bind, ret, echo, modify.
  destruct silent; cbn; [rewrite app_nil_r|]; reflexivity.
Qed.

(** The loop on an ordinary keystroke, outside interactive mode: the
    keystroke is applied and the loop goes on with the next event. *)
Lemma read_loop_ordinary (width : Z) (hidden paddchar : string) (silent : bool)
    (char : pyval) (pending : list (string * pyval)) (value : string) :
  ordinary term char = true ->
  read_loop term width hidden paddchar false silent (key_event char :: pending) value =
  (value' <- keystroke term width hidden paddchar silent value char ;;
   read_loop term width hidden paddchar false silent pending value').
Proof.
  intros Hord. apply ordinary_keys in Hord as (Hexit & Henter & _).
  cbn [read_loop key_event]. cbn [String.eqb Ascii.eqb Bool.eqb negb].
  rewrite Hexit, Henter. reflexivity.
Qed.

(** The loop on the enter key. *)
Lemma read_loop_enter (width : Z) (hidden paddchar : string) (interactive silent : bool)
    (pending : list (string * pyval)) (value : string) (out : Echoed) :
  pyval_eqb (KEY_ENTER term) (KEY_EXIT term) = false ->
  read_loop term width hidden paddchar interactive silent
    (key_event (KEY_ENTER term) :: pending) value out =
  (Ret (Some value, "input"%string, PyStr newline), out).
Proof.
  intros Hne. cbn [read_loop key_event]. cbn [String.eqb Ascii.eqb Bool.eqb negb].
  rewrite Hne, pyval_eqb_refl. reflexivity.
Qed.

Ltac evaluated := vm_compute; first [reflexivity | discriminate].

Ltac type_key :=
  rewrite read_loop_ordinary by assumption;
  unfold bind at 1;
  first [ rewrite keystroke_printable by (first [assumption | reflexivity | evaluated])
        | rewrite keystroke_full by (first [assumption | evaluated]) ];
  cbv beta iota.

(** C9. With an empty initial value, width 5 and no mask, the keystrokes
    [a], [b], [c] and the enter key make [readlineevent] return
    [('abc', 'input', '\n')], after echoing the three characters. *)
Theorem readlineevent_abc_enter (paddchar : string) (silent : bool)
    (rest : list (string * pyval)) (out : Echoed) :
  forallb (ordinary term) [PyStr "a"; PyStr "b"; PyStr "c"] = true ->
  pyval_eqb (KEY_ENTER term) (KEY_EXIT term) = false ->
  readlineevent term 5 "" "" paddchar false silent
    (map key_event [PyStr "a"; PyStr "b"; PyStr "c"; KEY_ENTER term] ++ rest) out =
  (Ret (Some "abc"%string, "input"%string, PyStr newline),
   out ++ [PyStr "a"; PyStr "b"; PyStr "c"]).
Proof.
  cbn [forallb]. rewrite !andb_true_iff. intros (Ha & Hb & Hc & _) Hne.
  unfold readlineevent. cbn [truthy String.eqb negb andb map app].
  unfold bind at 1, ret at 1.
  do 3 type_key.
  rewrite read_loop_enter by assumption.
  cbn [truthy String.eqb negb String.append]. rewrite <- !app_assoc. reflexivity.
Qed.

(** C8. With an empty initial value and width 3, the keystrokes [a], [b],
    [c], [d] and the enter key make [readlineevent] return the value [abc]:
    the [d] typed into the full buffer is dropped. On that keystroke the
    editor echoes the bell when it is not silent and echoes nothing when it
    is silent. *)
Theorem readlineevent_full_buffer (hidden paddchar : string) (silent : bool)
    (rest : list (string * pyval)) (out : Echoed) :
  forallb (ordinary term) [PyStr "a"; PyStr "b"; PyStr "c"; PyStr "d"] = true ->
  pyval_eqb (KEY_ENTER term) (KEY_EXIT term) = false ->
  let typed := fun s => if truthy hidden then PyStr hidden else PyStr s in
  readlineevent term 3 "" hidden paddchar false silent
    (map key_event [PyStr "a"; PyStr "b"; PyStr "c"; PyStr "d"; KEY_ENTER term] ++ rest) out =
  (Ret (Some "abc"%string, "input"%string, PyStr newline),
   out ++ [typed "a"; typed "b"; typed "c"]%string
       ++ (if silent then [] else [PyInt BEL])) /\
  keystroke term 3 hidden paddchar silent "abc" (PyStr "d")
    (out ++ [typed "a"; typed "b"; typed "c"]%string) =
  (Ret "abc"%string,
   out ++ [typed "a"; typed "b"; typed "c"]%string
       ++ (if silent then [] else [PyInt BEL])).
Proof.
  cbn [forallb]. rewrite !andb_true_iff. intros (Ha & Hb & Hc & Hd & _) Hne.
  cbv zeta. split.
  - unfold readlineevent. cbn [truthy String.eqb negb andb map app].
    rewrite andb_false_r.
    unfold bind at 1, ret at 1.
    do 4 type_key.
    rewrite read_loop_enter by assumption.
    cbn [String.append]. rewrite <- !app_assoc. reflexivity.
  - rewrite keystroke_full by (first [assumption | evaluated]).
    rewrite <- !app_assoc. reflexivity.
Qed.

End input_properties.

Lemma readlineevent_abc_enter_witness :
  readlineevent curses_terminal 5 "" "" " " false false
    (map key_event [PyStr "a"; PyStr "b"; PyStr "c"; KEY_ENTER curses_terminal] ++ []) [] =
  (Ret (Some "abc"%string, "input"%string, PyStr newline),
   [] ++ [PyStr "a"; PyStr "b"; PyStr "c"]).
Proof.
  apply (readlineevent_abc_enter curses_terminal " " false [] []); reflexivity.
Defined.

Lemma readlineevent_full_buffer_witness :
  readlineevent curses_terminal 3 "" "" " " false false
    (map key_event [PyStr "a"; PyStr "b"; PyStr "c"; PyStr "d"; KEY_ENTER curses_terminal]
     ++ []) [] =
  (Ret (Some "abc"%string, "input"%string, PyStr newline),
   [PyStr "a"; PyStr "b"; PyStr "c"; PyInt BEL]).
Proof.
  apply (proj1 (readlineevent_full_buffer curses_terminal "" " " false [] []
                  eq_refl eq_refl)).
Defined.

(** ** Further properties of the lightbar *)

Section lightbar_frames.

Context {X : Type} (f : Lightbar -> X).

(** *** What a method leaves alone, however it ends *)

Lemma keeps_ret {A} (a : A) : keeps f (ret a).
Proof. intros self; reflexivity. Qed.

Lemma keeps_raise {A} (e : exn) : keeps f (raise (A := A) e).
Proof. intros self; reflexivity. Qed.

Lemma keeps_lift {A} (o : outcome A) : keeps f (lift o).
Proof. intros self; reflexivity. Qed.

Lemma keeps_get : keeps f get.
Proof. intros self; reflexivity. Qed.

Lemma keeps_modify (g : Lightbar -> Lightbar) :
  (forall self, f (g self) = f self) -> keeps f (modify g).
Proof. intros Hg self. apply Hg. Qed.

Lemma keeps_bind {A B} (m : SE Lightbar A) (k : A -> SE Lightbar B) :
  keeps f m -> (forall a, keeps f (k a)) -> keeps f (bind m k).
Proof.
  intros Hm Hk self. unfold bind. specialize (Hm self).
  destruct (m self) as [[a| e |] self']; simpl in *; try assumption.
  rewrite Hk. assumption.
Qed.

Lemma keeps_if {A} (b : bool) (m1 m2 : SE Lightbar A) :
  keeps f m1 -> keeps f m2 -> keeps f (if b then m1 else m2).
Proof. destruct b; auto. Qed.

Lemma keeps_while (fuel : nat) (cond : Lightbar -> bool) (body : SE Lightbar unit) :
  keeps f body -> keeps f (while fuel cond body).
Proof.
  intros Hbody. induction fuel as [|fuel IH]; intros self; cbn [while];
    destruct (cond self); try reflexivity.
  apply (keeps_bind body (fun _ => while fuel cond body)); auto.
Qed.

(** *** What a method leaves alone when it returns *)

Lemma returns_keeping_ret {A} (a : A) : returns_keeping f (ret a).
Proof. intros self a' self' [= _ <-]. reflexivity. Qed.

Lemma returns_keeping_raise {A} (e : exn) : returns_keeping f (raise (A := A) e).
Proof. intros self a' self' [=]. Qed.

Lemma returns_keeping_lift {A} (o : outcome A) : returns_keeping f (lift o).
Proof. intros self a' self' [= _ <-]. reflexivity. Qed.

Lemma returns_keeping_get : returns_keeping f get.
Proof. intros self a' self' [= _ <-]. reflexivity. Qed.

Lemma returns_keeping_modify (g : Lightbar -> Lightbar) :
  (forall self, f (g self) = f self) -> returns_keeping f (modify g).
Proof. intros Hg self a' self' [= _ <-]. apply Hg. Qed.

Lemma returns_keeping_bind {A B} (m : SE Lightbar A) (k : A -> SE Lightbar B) :
  returns_keeping f m -> (forall a, returns_keeping f (k a)) ->
  returns_keeping f (bind m k).
Proof.
  intros Hm Hk self b self2. unfold bind.
  destruct (m self) as [[a| e |] self1] eqn:E; try discriminate.
  intros Hk2. rewrite (Hk a self1 b self2 Hk2). apply (Hm self a self1 E).
Qed.

Lemma returns_keeping_if {A} (b : bool) (m1 m2 : SE Lightbar A) :
  returns_keeping f m1 -> returns_keeping f m2 ->
  returns_keeping f (if b then m1 else m2).
Proof. destruct b; auto. Qed.

Lemma returns_keeping_while (fuel : nat) (cond : Lightbar -> bool)
    (body : SE Lightbar unit) :
  returns_keeping f body -> returns_keeping f (while fuel cond body).
Proof.
  intros Hbody. induction fuel as [|fuel IH]; intros self a self'; cbn [while];
    destruct (cond self); try discriminate; try (intros [= _ <-]; reflexivity).
  apply (returns_keeping_bind body (fun _ => while fuel cond body)); auto.
Qed.

(** A setter that returns has found the value it was given already there. *)
Lemma returns_keeping_vitem_idx_set (value : Z) :
  returns_keeping f (vitem_idx_set value).
Proof.
  intros self a self'. rewrite vitem_idx_set_run.
  destruct (_ =? _); [intros [= _ <-]; reflexivity | discriminate].
Qed.

Lemma returns_keeping_vitem_shift_set (value : Z) :
  returns_keeping f (vitem_shift_set value).
Proof.
  intros self a self'. rewrite vitem_shift_set_run.
  destruct (_ =? _); [intros [= _ <-]; reflexivity | discriminate].
Qed.

End lightbar_frames.

Section lightbar_exceptions.

Variable e0 : exn.

Lemma raises_only_ret {A} (a : A) : raises_only e0 (ret a).
Proof. intros self e self' [=]. Qed.

Lemma raises_only_get : raises_only e0 get.
Proof. intros self e self' [=]. Qed.

Lemma raises_only_modify (g : Lightbar -> Lightbar) : raises_only e0 (modify g).
Proof. intros self e self' [=]. Qed.

Lemma raises_only_bind {A B} (m : SE Lightbar A) (k : A -> SE Lightbar B) :
  raises_only e0 m -> (forall a, raises_only e0 (k a)) -> raises_only e0 (bind m k).
Proof.
  intros Hm Hk self e self2. unfold bind.
  destruct (m self) as [[a| e1 |] self1] eqn:E; try discriminate.
  - apply Hk.
  - intros [= <- <-]. apply (Hm self e1 self1 E).
Qed.

Lemma raises_only_if {A} (b : bool) (m1 m2 : SE Lightbar A) :
  raises_only e0 m1 -> raises_only e0 m2 -> raises_only e0 (if b then m1 else m2).
Proof. destruct b; auto. Qed.

Lemma raises_only_while (fuel : nat) (cond : Lightbar -> bool) (body : SE Lightbar unit) :
  raises_only e0 body -> raises_only e0 (while fuel cond body).
Proof.
  intros Hbody. induction fuel as [|fuel IH]; intros self e self'; cbn [while];
    destruct (cond self); try discriminate.
  apply (raises_only_bind body (fun _ => while fuel cond body)); auto.
Qed.

End lightbar_exceptions.

Lemma raises_only_vitem_idx_set (value : Z) :
  raises_only (AttributeError "moved") (vitem_idx_set value).
Proof.
  intros self e self'. rewrite vitem_idx_set_run.
  destruct (_ =? _); [discriminate | intros [= <- _]; reflexivity].
Qed.

Lemma raises_only_vitem_shift_set (value : Z) :
  raises_only (AttributeError "moved") (vitem_shift_set value).
Proof.
  intros self e self'. rewrite vitem_shift_set_run.
  destruct (_ =? _); [discriminate | intros [= <- _]; reflexivity].
Qed.

Section lightbar_further_properties.

Lemma keeps_surroundings_vitem_idx_set (value : Z) :
  keeps surroundings (vitem_idx_set value).
Proof.
  intros self. rewrite vitem_idx_set_run. destruct (_ =? _); reflexivity.
Qed.

Lemma keeps_surroundings_vitem_shift_set (value : Z) :
  keeps surroundings (vitem_shift_set value).
Proof.
  intros self. rewrite vitem_shift_set_run. destruct (_ =? _); reflexivity.
Qed.

Ltac kept :=
  repeat first
    [ apply keeps_surroundings_vitem_idx_set
    | apply keeps_surroundings_vitem_shift_set
    | apply keeps_bind; [| intro]
    | apply keeps_if
    | apply keeps_while
    | apply keeps_ret | apply keeps_raise | apply keeps_lift | apply keeps_get
    | apply keeps_modify; intro; reflexivity ].

Ltac kept_on_return :=
  repeat first
    [ apply returns_keeping_vitem_idx_set
    | apply returns_keeping_vitem_shift_set
    | apply returns_keeping_bind; [| intro]
    | apply returns_keeping_if
    | apply returns_keeping_while
    | apply returns_keeping_ret | apply returns_keeping_raise
    | apply returns_keeping_lift | apply returns_keeping_get
    | apply returns_keeping_modify; intro; reflexivity ].

Ltac raised :=
  repeat first
    [ apply raises_only_vitem_idx_set
    | apply raises_only_vitem_shift_set
    | apply raises_only_bind; [| intro]
    | apply raises_only_if
    | apply raises_only_while
    | apply raises_only_ret | apply raises_only_get | apply raises_only_modify ].

Ltac unfold_methods :=
  unfold process_keystroke, update_call, update_attr, update, position_set,
    _chk_bounds, move_home, move_end, move_down, move_up, move_pageup,
    move_pagedown, _up, _pagedown, _pageup, move_end, move_home, keys.

(** X1. A keystroke never touches the content, the key set or the window
    geometry, whatever the key is and however the call ends. *)
Theorem process_keystroke_surroundings (key : pyval) (self : Lightbar) :
  let self' := snd (process_keystroke key self) in
  window self' = window self /\ content self' = content self /\
  keyset self' = keyset self.
Proof.
  assert (H : keeps surroundings (process_keystroke key)) by (unfold_methods; kept).
  specialize (H self). unfold surroundings in H.
  injection H as Hw Hc Hk. cbv zeta. auto.
Qed.

(** X2. A keystroke that returns has moved nothing: the row, the offset and
    their previous values are the ones before the call. Every move of the
    selection leaves [process_keystroke] through an exception. *)
Theorem process_keystroke_returns_in_place (key : pyval) (self self' : Lightbar)
    (rstr : unibytes) :
  process_keystroke key self = (Ret rstr, self') ->
  vitem_idx self' = vitem_idx self /\ vitem_shift self' = vitem_shift self /\
  _vitem_lastidx self' = _vitem_lastidx self /\
  _vitem_lastshift self' = _vitem_lastshift self.
Proof.
  assert (H : returns_keeping cursor (process_keystroke key))
    by (unfold_methods; kept_on_return).
  intros Hrun. specialize (H self rstr self' Hrun). unfold cursor in H.
  injection H as H1 H2 H3 H4. unfold vitem_idx, vitem_shift. auto.
Qed.

Lemma process_keystroke_returns_in_place_witness :
  vitem_idx (with_quit true on_last_of_three) = vitem_idx on_last_of_three /\
  vitem_shift (with_quit true on_last_of_three) = vitem_shift on_last_of_three /\
  _vitem_lastidx (with_quit true on_last_of_three) = _vitem_lastidx on_last_of_three /\
  _vitem_lastshift (with_quit true on_last_of_three) = _vitem_lastshift on_last_of_three.
Proof.
  apply (process_keystroke_returns_in_place (PyStr "q") on_last_of_three
           (with_quit true on_last_of_three) []).
  vm_compute. reflexivity.
Defined.

(** X3. The same holds of every method that moves the selection, reachable
    from a keystroke or not: when [move_down], [move_home], [move_end],
    [_up], [_pagedown], [_pageup] or [_chk_bounds] returns, the instance is
    the one it was called on. *)
Theorem navigation_returns_in_place (fuel : nat) (self : Lightbar) :
  (forall r, fst (move_down self) = Ret r -> snd (move_down self) = self) /\
  (forall r, fst (move_home self) = Ret r -> snd (move_home self) = self) /\
  (forall r, fst (move_end self) = Ret r -> snd (move_end self) = self) /\
  (forall r, fst (_up self) = Ret r -> snd (_up self) = self) /\
  (forall r, fst (_pagedown self) = Ret r -> snd (_pagedown self) = self) /\
  (forall r, fst (_pageup self) = Ret r -> snd (_pageup self) = self) /\
  (forall r, fst (_chk_bounds fuel self) = Ret r -> snd (_chk_bounds fuel self) = self).
Proof.
  repeat split; intros r;
    match goal with |- fst (?m self) = _ -> _ =>
      assert (H : returns_keeping (fun s => s) m)
        by (unfold_methods; kept_on_return);
      destruct (m self) as [o s'] eqn:E; cbn [fst snd]; intros ->;
      apply (H self r s' E)
    end.
Qed.

Lemma navigation_returns_in_place_witness :
  snd (move_home (created window5 NETHACK_KEYSET)) = created window5 NETHACK_KEYSET /\
  snd (_chk_bounds 1 on_last_of_ten) = on_last_of_ten.
Proof.
  split.
  - apply (proj1 (proj2 (navigation_returns_in_place 1 (created window5 NETHACK_KEYSET)))
             []).
    reflexivity.
  - apply (proj2 (proj2 (proj2 (proj2 (proj2 (proj2
             (navigation_returns_in_place 1 on_last_of_ten)))))) tt).
    reflexivity.
Defined.

(** *** Keys and bindings *)

Lemma in_bindings (name : string) :
  In name bindings <->
  name = "home"%string \/ name = "end"%string \/ name = "pgup"%string \/
  name = "pgdown"%string \/ name = "up"%string \/ name = "down"%string \/
  name = "exit"%string.
Proof. unfold bindings. cbn. intuition congruence. Qed.

Ltac bound_name := apply in_bindings; tauto.

Lemma keys_run (name : string) (self : Lightbar) :
  keys name self = (dict_getitem (keyset self) name, self).
Proof. reflexivity. Qed.

Ltac start_keystroke :=
  unfold process_keystroke; unfold bind at 1; unfold modify at 1; cbv beta iota.

(** The next look-up of [process_keystroke]. *)
Ltac look_up :=
  unfold bind at 1; rewrite keys_run; unfold dict_getitem; cbn [keyset with_moved].

(** A look-up under a present binding that does not hold the key. *)
Ltac pass_binding Hall Hunb :=
  look_up;
  match goal with
  | |- context [keyset ?self !! ?name] =>
      let l := fresh "l" in
      let E := fresh "E" in
      destruct (Hall name ltac:(bound_name)) as [l E];
      rewrite E; cbv beta iota;
      rewrite (Hunb name l ltac:(first [bound_name | cbn; tauto]) E); cbv beta iota
  end.

(** X4. With the seven bindings present, a key that none of them holds is
    ignored: [process_keystroke] returns the empty string and only clears
    [moved]. *)
Theorem process_keystroke_unbound (key : pyval) (self : Lightbar) :
  (forall name, In name bindings -> is_Some (keyset self !! name)) ->
  unbound (keyset self) bindings key ->
  process_keystroke key self = (Ret [], with_moved false self).
Proof.
  intros Hall Hunb. start_keystroke.
  do 7 pass_binding Hall Hunb. reflexivity.
Qed.

Lemma process_keystroke_unbound_witness :
  process_keystroke (PyStr "x") on_last_of_ten = (Ret [], with_moved false on_last_of_ten).
Proof.
  apply process_keystroke_unbound.
  - intros name Hname. apply in_bindings in Hname.
    repeat destruct Hname as [-> | Hname]; try subst name; eexists; reflexivity.
  - intros name l Hname. apply in_bindings in Hname.
    repeat destruct Hname as [-> | Hname]; try subst name;
      intros [= <-]; reflexivity.
Defined.

(** X5. With the seven bindings present, a key held by [exit] and by none of
    the six bindings looked up before it sets [quit] and moves nothing. *)
Theorem process_keystroke_exit (key : pyval) (self : Lightbar) (l : list pyval) :
  (forall name, In name bindings -> is_Some (keyset self !! name)) ->
  unbound (keyset self) ["home"; "end"; "pgup"; "pgdown"; "up"; "down"]%string key ->
  keyset self !! "exit"%string = Some l -> py_in key l = true ->
  process_keystroke key self = (Ret [], with_quit true (with_moved false self)).
Proof.
  intros Hall Hunb Hexit Hin. start_keystroke.
  do 6 pass_binding Hall Hunb. look_up. rewrite Hexit. cbv beta iota.
  rewrite Hin. reflexivity.
Qed.

Lemma process_keystroke_exit_witness :
  process_keystroke (PyStr "q") on_last_of_ten
  = (Ret [], with_quit true (with_moved false on_last_of_ten)).
Proof.
  apply (process_keystroke_exit (PyStr "q") on_last_of_ten [PyStr "q"]).
  - intros name Hname. apply in_bindings in Hname.
    repeat destruct Hname as [-> | Hname]; try subst name; eexists; reflexivity.
  - intros name l Hname. cbn in Hname.
    repeat destruct Hname as [<- | Hname]; try contradiction;
      intros [= <-]; reflexivity.
  - reflexivity.
  - reflexivity.
Defined.

(** X6. The keys bound to page-up, page-down and up are dead: with the
    bindings present, a key held by [pgup], [pgdown] or [up] and by no
    binding looked up earlier makes [process_keystroke] raise
    [AttributeError] for [move_pageup], [move_pagedown] or [move_up], the
    class having only [_pageup], [_pagedown] and [_up]; the selection does
    not move. *)
Theorem process_keystroke_dead_keys (key : pyval) (self : Lightbar) (l : list pyval) :
  (forall name, In name bindings -> is_Some (keyset self !! name)) ->
  py_in key l = true ->
  (unbound (keyset self) ["home"; "end"]%string key ->
   keyset self !! "pgup"%string = Some l ->
   process_keystroke key self
   = (Raise (AttributeError "move_pageup"), with_moved false self)) /\
  (unbound (keyset self) ["home"; "end"; "pgup"]%string key ->
   keyset self !! "pgdown"%string = Some l ->
   process_keystroke key self
   = (Raise (AttributeError "move_pagedown"), with_moved false self)) /\
  (unbound (keyset self) ["home"; "end"; "pgup"; "pgdown"]%string key ->
   keyset self !! "up"%string = Some l ->
   process_keystroke key self
   = (Raise (AttributeError "move_up"), with_moved false self)).
Proof.
  intros Hall Hin. repeat split; intros Hunb Hl; start_keystroke.
  - do 2 pass_binding Hall Hunb. look_up. rewrite Hl. cbv beta iota.
    rewrite Hin. reflexivity.
  - do 3 pass_binding Hall Hunb. look_up. rewrite Hl. cbv beta iota.
    rewrite Hin. reflexivity.
  - do 4 pass_binding Hall Hunb. look_up. rewrite Hl. cbv beta iota.
    rewrite Hin. reflexivity.
Qed.

Lemma process_keystroke_dead_keys_witness :
  process_keystroke (PyStr "k") on_last_of_ten
  = (Raise (AttributeError "move_up"), with_moved false on_last_of_ten).
Proof.
  apply (process_keystroke_dead_keys (PyStr "k") on_last_of_ten [PyStr "k"]).
  - intros name Hname. apply in_bindings in Hname.
    repeat destruct Hname as [-> | Hname]; try subst name; eexists; reflexivity.
  - reflexivity.
  - intros name l Hname. cbn in Hname.
    repeat destruct Hname as [<- | Hname]; try contradiction;
      intros [= <-]; reflexivity.
  - reflexivity.
Defined.

(** A look-up that either passes or is the missing binding. *)
Ltac pass_or_miss Hunb :=
  look_up;
  match goal with
  | |- context [keyset ?self !! ?name] =>
      let l := fresh "l" in
      let E := fresh "E" in
      destruct (keyset self !! name) as [l|] eqn:E;
      [ cbv beta iota; rewrite (Hunb name l ltac:(bound_name) E); cbv beta iota
      | exists name; repeat split; [bound_name | exact E] ]
  end.

(** X7. A key set that lacks one of the seven bindings breaks the keys it
    does not bind: a key held by none of the bindings that are there makes
    [process_keystroke] raise [KeyError] for a missing binding instead of
    being ignored. *)
Theorem process_keystroke_missing_binding (key : pyval) (self : Lightbar)
    (missing : string) :
  In missing bindings -> keyset self !! missing = None ->
  unbound (keyset self) bindings key ->
  exists name,
    In name bindings /\ keyset self !! name = None /\
    process_keystroke key self = (Raise (KeyError name), with_moved false self).
Proof.
  intros Hin Hnone Hunb. start_keystroke.
  do 7 (pass_or_miss Hunb; []).
  exfalso. apply in_bindings in Hin.
  repeat destruct Hin as [-> | Hin]; try subst missing; congruence.
Qed.

Lemma process_keystroke_missing_binding_witness :
  exists name,
    In name bindings /\
    keyset (created window5 (delete "exit"%string NETHACK_KEYSET)) !! name = None /\
    process_keystroke (PyStr "x") (created window5 (delete "exit"%string NETHACK_KEYSET))
    = (Raise (KeyError name),
       with_moved false (created window5 (delete "exit"%string NETHACK_KEYSET))).
Proof.
  apply (process_keystroke_missing_binding (PyStr "x") _ "exit"%string).
  - apply in_bindings; tauto.
  - reflexivity.
  - intros name l Hname. apply in_bindings in Hname.
    repeat destruct Hname as [-> | Hname]; try subst name;
      intros [= <-]; reflexivity.
Defined.

(** *** Home, End, Up and the pages *)

(** Comparisons decided in a proof, as facts for [lia]. *)
Ltac bools :=
  repeat match goal with
  | H : _ && _ = true |- _ => apply andb_true_iff in H; destruct H
  | H : _ && _ = false |- _ => apply andb_false_iff in H; destruct H
  | H : negb _ = true |- _ => apply negb_true_iff in H
  | H : negb _ = false |- _ => apply negb_false_iff in H
  | H : (_ >? _) = _ |- _ => rewrite Z.gtb_ltb in H
  | H : (_ >=? _) = _ |- _ => rewrite Z.geb_leb in H
  | H : (_ =? _) = true |- _ => apply Z.eqb_eq in H
  | H : (_ =? _) = false |- _ => apply Z.eqb_neq in H
  | H : (_ <? _) = true |- _ => apply Z.ltb_lt in H
  | H : (_ <? _) = false |- _ => apply Z.ltb_ge in H
  | H : (_ <=? _) = true |- _ => apply Z.leb_le in H
  | H : (_ <=? _) = false |- _ => apply Z.leb_gt in H
  end.

Ltac fields :=
  unfold index, vitem_idx, vitem_shift, len in *;
  cbn [snd fst _vitem_idx _vitem_shift _vitem_lastidx _vitem_lastshift content window
       with_vitem_idx with_vitem_lastidx with_vitem_shift with_vitem_lastshift] in *.

(** Runs the setter at the head of a method, on the test it makes. *)
Ltac run_setter :=
  first [rewrite vitem_idx_set_run | rewrite vitem_shift_set_run];
  match goal with
  | |- context [if ?a =? ?b then _ else _] =>
      destruct (Z.eqb_spec a b); cbv beta iota; try (fields; lia)
  end.

Lemma move_home_run (self : Lightbar) :
  move_home self =
  if (vitem_idx self =? 0) && (vitem_shift self =? 0) then (Ret [], self)
  else if vitem_idx self =? 0 then
    (Raise (AttributeError "moved"),
     with_vitem_shift 0 (with_vitem_lastshift (vitem_shift self) self))
  else
    (Raise (AttributeError "moved"),
     with_vitem_idx 0 (with_vitem_lastidx (vitem_idx self) self)).
Proof.
  unfold move_home, bind, get, ret. cbv beta iota.
  destruct (Z.eqb_spec (vitem_idx self) 0) as [Hi|Hi];
    destruct (Z.eqb_spec (vitem_shift self) 0) as [Hs|Hs]; cbn [andb negb];
    try reflexivity.
  - run_setter. run_setter. reflexivity.
  - run_setter. reflexivity.
  - run_setter. reflexivity.
Qed.

Lemma move_end_run (self : Lightbar) :
  move_end self =
  if len self <? visible_height (window self) then
    if vitem_idx self =? len self - 1 then (Ret [], self)
    else (Raise (AttributeError "moved"),
          with_vitem_idx (len self - 1) (with_vitem_lastidx (vitem_idx self) self))
  else if vitem_shift self =? len self - visible_height (window self) then
    if vitem_idx self =? visible_height (window self) - 1 then (Ret [], self)
    else (Raise (AttributeError "moved"),
          with_vitem_idx (visible_height (window self) - 1)
            (with_vitem_lastidx (vitem_idx self) self))
  else
    (Raise (AttributeError "moved"),
     with_vitem_shift (len self - visible_height (window self))
       (with_vitem_lastshift (vitem_shift self) self)).
Proof.
  unfold move_end, bind, get, ret. cbv beta iota.
  destruct (len self <? visible_height (window self)).
  - rewrite vitem_idx_set_run. unfold vitem_idx.
    destruct (_vitem_idx self =? len self - 1); reflexivity.
  - rewrite vitem_shift_set_run. unfold vitem_shift.
    destruct (_vitem_shift self =? len self - visible_height (window self));
      [|reflexivity].
    rewrite vitem_idx_set_run. unfold vitem_idx.
    destruct (_vitem_idx self =? visible_height (window self) - 1); reflexivity.
Qed.

Lemma _up_run (self : Lightbar) :
  _up self =
  if 0 =? index self then (Ret [], self)
  else if vitem_idx self >=? 1 then
    (Raise (AttributeError "moved"),
     with_vitem_idx (vitem_idx self - 1) (with_vitem_lastidx (vitem_idx self) self))
  else if vitem_shift self >? 0 then
    (Raise (AttributeError "moved"),
     with_vitem_shift (vitem_shift self - 1)
       (with_vitem_lastshift (vitem_shift self) self))
  else (Ret [], self).
Proof.
  unfold _up, bind, get, ret. cbv beta iota.
  destruct (0 =? index self); [reflexivity|].
  destruct (vitem_idx self >=? 1).
  - run_setter. reflexivity.
  - destruct (vitem_shift self >? 0); [|reflexivity].
    run_setter. reflexivity.
Qed.

Lemma _pagedown_run (self : Lightbar) :
  _pagedown self =
  if len self <? visible_height (window self) then
    if vitem_idx self =? len self - 1 then (Ret [], self)
    else (Raise (AttributeError "moved"),
          with_vitem_idx (len self - 1) (with_vitem_lastidx (vitem_idx self) self))
  else if vitem_shift self + visible_height (window self)
          <? len self - visible_height (window self) then
    if visible_height (window self) =? 0 then (Ret [], self)
    else (Raise (AttributeError "moved"),
          with_vitem_shift (vitem_shift self + visible_height (window self))
            (with_vitem_lastshift (vitem_shift self) self))
  else if vitem_shift self =? len self - visible_height (window self) then
    if vitem_idx self =? visible_height (window self) - 1 then (Ret [], self)
    else (Raise (AttributeError "moved"),
          with_vitem_idx (visible_height (window self) - 1)
            (with_vitem_lastidx (vitem_idx self) self))
  else
    (Raise (AttributeError "moved"),
     with_vitem_shift (len self - visible_height (window self))
       (with_vitem_lastshift (vitem_shift self) self)).
Proof.
  unfold _pagedown. unfold bind at 1, get at 1. cbv beta iota.
  destruct (Z.ltb_spec (len self) (visible_height (window self))) as [Hshort|Hlong].
  - unfold bind, ret. rewrite vitem_idx_set_run. unfold vitem_idx.
    destruct (_vitem_idx self =? len self - 1); reflexivity.
  - destruct (vitem_shift self + visible_height (window self)
              <? len self - visible_height (window self)).
    + unfold bind, ret. rewrite vitem_shift_set_run. unfold vitem_shift.
      destruct (Z.eqb_spec (_vitem_shift self)
                  (_vitem_shift self + visible_height (window self)));
        destruct (Z.eqb_spec (visible_height (window self)) 0);
        try reflexivity; lia.
    + destruct (Z.eqb_spec (vitem_shift self)
                  (len self - visible_height (window self))) as [Hs|Hs]; cbn [negb].
      * rewrite move_end_run.
        destruct (Z.ltb_spec (len self) (visible_height (window self))); [lia|].
        destruct (Z.eqb_spec (vitem_shift self)
                    (len self - visible_height (window self))); [|lia].
        reflexivity.
      * unfold bind, ret. rewrite vitem_shift_set_run. unfold vitem_shift in *.
        destruct (Z.eqb_spec (_vitem_shift self)
                    (len self - visible_height (window self))); [lia|reflexivity].
Qed.

Lemma _pageup_run (self : Lightbar) :
  _pageup self =
  if (len self <? visible_height (window self) - 1) && negb (vitem_idx self =? 0) then
    (Raise (AttributeError "moved"),
     with_vitem_idx 0 (with_vitem_lastidx (vitem_idx self) self))
  else if vitem_shift self - visible_height (window self) >? 0 then
    if visible_height (window self) =? 0 then (Ret None, self)
    else (Raise (AttributeError "moved"),
          with_vitem_shift (vitem_shift self - visible_height (window self))
            (with_vitem_lastshift (vitem_shift self) self))
  else if vitem_shift self >? 0 then
    (Raise (AttributeError "moved"),
     with_vitem_shift 0 (with_vitem_lastshift (vitem_shift self) self))
  else if vitem_idx self =? 0 then
    if vitem_shift self =? 0 then (Ret (Some []), self)
    else (Raise (AttributeError "moved"),
          with_vitem_shift 0 (with_vitem_lastshift (vitem_shift self) self))
  else
    (Raise (AttributeError "moved"),
     with_vitem_idx 0 (with_vitem_lastidx (vitem_idx self) self)).
Proof.
  unfold _pageup. unfold bind at 1, get at 1. cbv beta iota.
  unfold bind at 1.
  assert (Hfirst :
    (if len self <? visible_height (window self) - 1 then vitem_idx_set 0 else ret ()) self
    = if (len self <? visible_height (window self) - 1) && negb (vitem_idx self =? 0)
      then (Raise (AttributeError "moved"),
            with_vitem_idx 0 (with_vitem_lastidx (vitem_idx self) self))
      else (Ret tt, self)).
  { destruct (len self <? visible_height (window self) - 1); cbn [andb]; [|reflexivity].
    rewrite vitem_idx_set_run. unfold vitem_idx.
    destruct (_vitem_idx self =? 0); reflexivity. }
  rewrite Hfirst. clear Hfirst.
  destruct ((len self <? visible_height (window self) - 1) && negb (vitem_idx self =? 0));
    [reflexivity|]. cbv beta iota.
  unfold bind at 1, get at 1. cbv beta iota.
  destruct (Z.gtb_spec (vitem_shift self - visible_height (window self)) 0).
  - unfold bind, ret. rewrite vitem_shift_set_run. unfold vitem_shift.
    destruct (Z.eqb_spec (_vitem_shift self)
                (_vitem_shift self - visible_height (window self)));
      destruct (Z.eqb_spec (visible_height (window self)) 0);
      try reflexivity; lia.
  - destruct (Z.gtb_spec (vitem_shift self) 0).
    + unfold bind, ret. rewrite vitem_shift_set_run. unfold vitem_shift in *.
      destruct (Z.eqb_spec (_vitem_shift self) 0); [lia|reflexivity].
    + unfold bind at 1. rewrite move_home_run.
      destruct (Z.eqb_spec (vitem_idx self) 0);
        destruct (Z.eqb_spec (vitem_shift self) 0); reflexivity.
Qed.

(** Runs the innermost call of the method [m] by its equation [lem] and
    splits on its tests, until no call is left. *)
Ltac navigate m lem :=
  repeat (match goal with
          | |- context [m ?x] =>
              lazymatch x with
              | context [m _] => fail
              | _ => rewrite (lem x)
              end
          end; fields;
          repeat (match goal with
                  | |- context [if ?c then _ else _] => destruct c eqn:?
                  end; fields));
  bools.

(** X8. Home takes two calls from a scrolled page: a call that finds the
    row away from 0 resets the row and leaves through the setter before it
    reaches the offset. After a second call the selection is at (0, 0), and
    there Home returns the empty string and changes nothing. *)
Theorem move_home_twice (self : Lightbar) :
  let once := snd (move_home self) in
  let twice := snd (move_home once) in
  (vitem_idx self <> 0 ->
   vitem_idx once = 0 /\ vitem_shift once = vitem_shift self) /\
  vitem_idx twice = 0 /\ vitem_shift twice = 0 /\
  move_home twice = (Ret [], twice).
Proof.
  cbv zeta. repeat split; try intros Hrow; navigate move_home move_home_run;
    try lia; try reflexivity.
Qed.

Lemma move_home_twice_witness :
  vitem_idx (snd (move_home on_last_of_ten)) = 0 /\
  vitem_shift (snd (move_home on_last_of_ten)) = vitem_shift on_last_of_ten.
Proof.
  apply (proj1 (move_home_twice on_last_of_ten)). vm_compute. discriminate.
Defined.

(** X9. Over content that fills the window End takes two calls as well:
    the first call that has to move the offset stops there. After the
    second the offset is [len(content) - visible_height], the row is
    [visible_height - 1], the absolute index is the last item, and End
    returns without a change. *)
Theorem move_end_twice (self : Lightbar) :
  visible_height (window self) <= len self ->
  let twice := snd (move_end (snd (move_end self))) in
  vitem_shift twice = len self - visible_height (window self) /\
  vitem_idx twice = visible_height (window self) - 1 /\
  index twice = len self - 1 /\
  move_end twice = (Ret [], twice).
Proof.
  intros Hfill. cbv zeta. repeat split; navigate move_end move_end_run;
    try lia; try reflexivity.
Qed.

Lemma move_end_twice_witness :
  vitem_shift (snd (move_end (snd (move_end (with_content ten_items
                 (created window5 NETHACK_KEYSET)))))) = 10 - 5 /\
  vitem_idx (snd (move_end (snd (move_end (with_content ten_items
                 (created window5 NETHACK_KEYSET)))))) = 5 - 1 /\
  index (snd (move_end (snd (move_end (with_content ten_items
                 (created window5 NETHACK_KEYSET)))))) = 10 - 1.
Proof.
  destruct (move_end_twice (with_content ten_items (created window5 NETHACK_KEYSET)))
    as (H1 & H2 & H3 & _).
  - vm_compute. discriminate.
  - repeat split; assumption.
Defined.

(** X10. Over content shorter than the window End writes the row
    [len(content) - 1] and never touches the offset: over empty content the
    row becomes -1, and on a page that is scrolled the absolute index ends
    past the last item. *)
Theorem move_end_short_content (self : Lightbar) :
  len self < visible_height (window self) ->
  let self' := snd (move_end self) in
  vitem_idx self' = len self - 1 /\ vitem_shift self' = vitem_shift self /\
  (content self = [] -> vitem_idx self' = -1) /\
  (0 < vitem_shift self -> len self <= index self').
Proof.
  intros Hshort. cbv zeta.
  assert (Hrow : vitem_idx (snd (move_end self)) = len self - 1
                 /\ vitem_shift (snd (move_end self)) = vitem_shift self).
  { split; navigate move_end move_end_run; try lia; try reflexivity. }
  destruct Hrow as [Hrow Hoff]. repeat split; try assumption.
  - intros Hempty. rewrite Hrow. unfold len. rewrite Hempty. reflexivity.
  - intros Hscrolled. unfold index. rewrite Hrow, Hoff. lia.
Qed.

Lemma move_end_short_content_witness :
  vitem_idx (snd (move_end (created window5 NETHACK_KEYSET))) = -1.
Proof.
  apply (move_end_short_content (created window5 NETHACK_KEYSET)).
  - vm_compute. reflexivity.
  - reflexivity.
Defined.

(** X11. Up moves the absolute index back by one from every state whose
    row and offset are not negative and whose absolute index is positive,
    and keeps both non-negative; at absolute index 0 it returns without a
    change. *)
Theorem up_step (self : Lightbar) :
  0 <= vitem_idx self -> 0 <= vitem_shift self ->
  let self' := snd (_up self) in
  (index self = 0 -> _up self = (Ret [], self)) /\
  (0 < index self ->
   index self' = index self - 1 /\ 0 <= vitem_idx self' /\ 0 <= vitem_shift self').
Proof.
  intros Hrow Hoff. cbv zeta.
  split; [intros Hidx | intros Hidx; split; [|split]]; navigate _up _up_run;
    try lia; try reflexivity.
Qed.

Lemma up_step_witness :
  index (snd (_up on_last_of_ten)) = index on_last_of_ten - 1 /\
  0 <= vitem_idx (snd (_up on_last_of_ten)) /\
  0 <= vitem_shift (snd (_up on_last_of_ten)).
Proof.
  apply (up_step on_last_of_ten); vm_compute; first [discriminate | reflexivity].
Defined.

(** X12. Up undoes Down on the absolute index, and Down undoes Up, from
    every state whose row and offset are not negative and whose absolute
    index lies in the content. The row and the offset themselves need not
    come back: at the bottom row Down scrolls the page and Up then moves
    the row. *)
Theorem up_down_round_trip (self : Lightbar) :
  0 <= vitem_idx self -> 0 <= vitem_shift self -> index self < len self ->
  index (snd (_up (snd (move_down self)))) = index self /\
  (0 < index self -> index (snd (move_down (snd (_up self)))) = index self).
Proof.
  intros Hrow Hoff Hin.
  destruct (move_down_step self Hrow Hoff Hin) as (Hd & Hdr & Hdo & Hdl).
  cbv zeta in *. split.
  - destruct (up_step (snd (move_down self)) Hdr Hdo) as [_ Hu].
    destruct Hu as (Hu & _); [unfold index in *; lia|]. lia.
  - intros Hpos. destruct (up_step self Hrow Hoff) as [_ Hu].
    destruct (Hu Hpos) as (Hu1 & Hu2 & Hu3).
    assert (Hlen : len (snd (_up self)) = len self)
      by (navigate _up _up_run; reflexivity).
    destruct (move_down_step (snd (_up self)) Hu2 Hu3) as (Hd' & _); [lia|].
    cbv zeta in Hd'. lia.
Qed.

Lemma up_down_round_trip_witness :
  index (snd (_up (snd (move_down on_first_of_three)))) = index on_first_of_three.
Proof.
  apply (up_down_round_trip on_first_of_three); vm_compute;
    first [discriminate | reflexivity].
Defined.

(** *** Which commands keep the invariant *)

Ltac invariant_kept m lem :=
  unfold invariant in *;
  match goal with
  | Hinv : _ /\ (_ -> _) |- _ =>
      let Hoff := fresh "Hoff" in
      let Hin := fresh "Hin" in
      destruct Hinv as [Hoff Hin];
      split;
      [ navigate m lem; try lia
      | navigate m lem;
        let Hne := fresh "Hne" in
        intros Hne; destruct (Hin Hne) as [? ?]; fields; try lia ]
  end.

(** X13. Up keeps the invariant of the selector. *)
Theorem up_keeps_invariant (self : Lightbar) :
  invariant self -> invariant (snd (_up self)).
Proof. intros Hinv. invariant_kept _up _up_run. Qed.

Lemma up_keeps_invariant_witness : invariant (snd (_up on_last_of_ten)).
Proof.
  apply up_keeps_invariant.
  split; [vm_compute; discriminate|].
  intros _. vm_compute. repeat split; discriminate.
Defined.

(** X14. Home keeps the invariant of the selector, on its first call as on
    its second. *)
Theorem move_home_keeps_invariant (self : Lightbar) :
  invariant self -> invariant (snd (move_home self)).
Proof. intros Hinv. invariant_kept move_home move_home_run. Qed.

Lemma move_home_keeps_invariant_witness : invariant (snd (move_home on_last_of_ten)).
Proof.
  apply move_home_keeps_invariant.
  split; [vm_compute; discriminate|].
  intros _. vm_compute. repeat split; discriminate.
Defined.

(** X15. Page-up keeps the invariant of the selector: the offset it writes
    is never negative and never larger than the one it found. *)
Theorem pageup_keeps_invariant (self : Lightbar) :
  invariant self ->
  invariant (snd (_pageup self)) /\
  (0 <= visible_height (window self) ->
   0 <= vitem_shift (snd (_pageup self)) <= vitem_shift self).
Proof.
  intros Hinv. split.
  - invariant_kept _pageup _pageup_run.
  - intros Hheight. destruct Hinv as [Hoff _].
    split; navigate _pageup _pageup_run; lia.
Qed.

Lemma pageup_keeps_invariant_witness :
  invariant (snd (_pageup on_last_of_ten)) /\
  0 <= vitem_shift (snd (_pageup on_last_of_ten)) <= vitem_shift on_last_of_ten.
Proof.
  destruct (pageup_keeps_invariant on_last_of_ten) as [Hinv Hoff].
  - split; [vm_compute; discriminate|].
    intros _. vm_compute. repeat split; discriminate.
  - split; [exact Hinv|]. apply Hoff. vm_compute. discriminate.
Defined.

(** X16. End keeps the invariant when the content fills the window or the
    page is not scrolled. *)
Theorem move_end_keeps_invariant (self : Lightbar) :
  invariant self -> 0 < visible_height (window self) ->
  visible_height (window self) <= len self \/ vitem_shift self = 0 ->
  invariant (snd (move_end self)).
Proof.
  intros Hinv Hheight Hfit.
  assert (Hlen : 0 <= len self) by (unfold len; lia).
  assert (Hempty : content self = [] -> len self = 0)
    by (intros E; unfold len; rewrite E; reflexivity).
  invariant_kept move_end move_end_run.
  all: destruct Hfit; fields; lia.
Qed.

Lemma move_end_keeps_invariant_witness : invariant (snd (move_end on_first_of_three)).
Proof.
  apply move_end_keeps_invariant.
  - split; [vm_compute; discriminate|].
    intros _. vm_compute. repeat split; discriminate.
  - reflexivity.
  - right. reflexivity.
Defined.

(** X17. Page-down keeps the invariant under the same condition, and over
    content that fills the window it never leaves the offset past the last
    page, wherever the offset was. *)
Theorem pagedown_keeps_invariant (self : Lightbar) :
  (invariant self -> 0 < visible_height (window self) ->
   visible_height (window self) <= len self \/ vitem_shift self = 0 ->
   invariant (snd (_pagedown self))) /\
  (visible_height (window self) <= len self ->
   vitem_shift (snd (_pagedown self)) <= len self - visible_height (window self)).
Proof.
  split.
  - intros Hinv Hheight Hfit.
    assert (Hlen : 0 <= len self) by (unfold len; lia).
    invariant_kept _pagedown _pagedown_run.
    all: destruct Hfit; fields; lia.
  - intros Hfill. navigate _pagedown _pagedown_run; lia.
Qed.

Lemma pagedown_keeps_invariant_witness :
  invariant (snd (_pagedown (with_content ten_items (created window5 NETHACK_KEYSET)))) /\
  vitem_shift (snd (_pagedown on_last_of_ten)) <= len on_last_of_ten - 5.
Proof.
  split.
  - apply (proj1 (pagedown_keeps_invariant _)).
    + split; [vm_compute; discriminate|].
      intros _. vm_compute. repeat split; discriminate.
    + reflexivity.
    + left. vm_compute. discriminate.
  - apply (proj2 (pagedown_keeps_invariant on_last_of_ten)).
    vm_compute. discriminate.
Defined.

(** *** Replacing the content, re-normalizing *)

Lemma update_surroundings (fuel : nat) (unicodelist : option (list string))
    (self : Lightbar) :
  surroundings (snd (update fuel unicodelist self)) =
  (window self, match unicodelist with None => [""%string] | Some l => l end,
   keyset self).
Proof.
  unfold update. unfold bind at 1, modify at 1. cbv beta iota.
  match goal with |- surroundings (snd (?rest ?s)) = _ =>
    assert (H : keeps surroundings rest) by (unfold_methods; kept);
    rewrite (H s)
  end.
  reflexivity.
Qed.

(** X18. [lightbar.update(unicodelist)] never returns and never installs the
    list: whatever list it is given and whatever the state, the content
    afterwards is the single entry [u''], the key set and the window are
    untouched, and the call raises either the [TypeError] of calling [None],
    with the row and the offset as they were, or the [AttributeError] of the
    assignment to [moved]. *)
Theorem update_call_ignores_list (fuel : nat) (unicodelist : list string)
    (self : Lightbar) :
  let run := update_call (S fuel) unicodelist self in
  content (snd run) = [""%string] /\
  window (snd run) = window self /\ keyset (snd run) = keyset self /\
  (fst run = Raise (TypeError "'NoneType' object is not callable")
   /\ cursor (snd run) = cursor self
   \/ fst run = Raise (AttributeError "moved")).
Proof.
  cbv zeta. unfold update_call, update_attr, bind, ret, raise.
  pose proof (update_surroundings (S fuel) None self) as Hsur.
  pose proof (update_ends fuel None self) as Hend.
  assert (Hcur : returns_keeping cursor (update (S fuel) None))
    by (unfold_methods; kept_on_return).
  assert (Hexn : raises_only (AttributeError "moved") (update (S fuel) None))
    by (unfold_methods; raised).
  specialize (Hcur self). specialize (Hexn self).
  destruct (update (S fuel) None self) as [[[]| e |] self1]; cbn [fst snd] in *;
    unfold surroundings in Hsur; injection Hsur as Hw Hc Hk.
  - repeat split; eauto.
  - repeat split; auto. right. rewrite (Hexn e self1 eq_refl). reflexivity.
  - contradiction.
Qed.

(** A loop whose body always raises returns exactly when its test fails on
    entry. *)
Lemma while_raising_returns (fuel : nat) (cond : Lightbar -> bool)
    (body : SE Lightbar unit) (self : Lightbar) :
  (forall s, exists e, fst (body s) = Raise e) ->
  (cond self = false -> while fuel cond body self = (Ret tt, self)) /\
  (cond self = true -> fst (while fuel cond body self) <> Ret tt).
Proof.
  intros Hbody. split; intros Hc; destruct fuel; cbn [while]; rewrite Hc;
    try reflexivity; try discriminate.
  destruct (Hbody self) as [e He]. unfold bind.
  destruct (body self) as [[[]| e' |] self']; cbn in He; discriminate.
Qed.

(** X19. Re-normalization returns exactly when there is nothing to
    re-normalize: [_chk_bounds] returns if and only if none of its three
    tests holds on entry, that is, the page is not scrolled or the
    selection and the bottom of the window lie within the content, and the
    row is not positive or the selection lies within the content. Whenever
    it has something to correct it raises or runs out of its budget. *)
Theorem chk_bounds_returns_iff (fuel : nat) (self : Lightbar) :
  fst (_chk_bounds fuel self) = Ret tt <->
  (vitem_shift self = 0 \/
   index self < len self /\
   vitem_shift self + visible_height (window self) - 1 <= len self) /\
  (vitem_idx self <= 0 \/ index self < len self).
Proof.
  unfold _chk_bounds. unfold bind at 1, get at 1. cbv beta iota. unfold bind at 1.
  match goal with |- context [while fuel ?c ?b] =>
    pose proof (fun s => while_raising_returns fuel c b s) as Hloop1 end.
  match goal with |- context [bind (while fuel _ _) (fun _ => while fuel ?c ?b)] =>
    pose proof (fun s => while_raising_returns fuel c b s) as Hloop2 end.
  assert (Hbody1 : forall s, exists e,
      fst (((self0 <- get;; vitem_shift_set (vitem_shift self0 - 1));;
            self0 <- get;; vitem_idx_set (vitem_idx self0 + 1)) s) = Raise e).
  { intros s. unfold bind, get. rewrite vitem_shift_set_run.
    destruct (Z.eqb_spec (_vitem_shift s) (vitem_shift s - 1));
      [unfold vitem_shift in *; lia|]. eexists; reflexivity. }
  assert (Hbody2 : forall s, exists e,
      fst ((self0 <- get;; vitem_idx_set (vitem_idx self0 - 1)) s) = Raise e).
  { intros s. unfold bind, get. rewrite vitem_idx_set_run.
    destruct (Z.eqb_spec (_vitem_idx s) (vitem_idx s - 1));
      [unfold vitem_idx in *; lia|]. eexists; reflexivity. }
  destruct (negb (vitem_shift self =? 0) && (index self + 1 >? len self)) eqn:Hc1.
  - (* the selection is out of range on a scrolled page: line 236 or 237 raises *)
    bools. split; [|intros [[Hz|[Hin _]] _]; fields; lia].
    unfold bind, get. cbv beta iota. rewrite vitem_shift_set_run.
    destruct (Z.eqb_spec (_vitem_shift self) (len self - visible_height (window self) + 1));
      [|cbv beta iota; cbn [fst]; discriminate].
    cbv beta iota. rewrite vitem_idx_set_run.
    destruct (Z.eqb_spec (_vitem_idx self) (visible_height (window self) - 2));
      [|cbv beta iota; cbn [fst]; discriminate].
    exfalso. fields. lia.
  - unfold ret at 1. cbv beta iota. unfold bind at 1.
    destruct (Hloop1 self Hbody1) as [Hout1 Hin1].
    match goal with |- context [while fuel ?c ?b self] =>
      destruct (c self) eqn:Hc2 end.
    + specialize (Hin1 eq_refl).
      split.
      * destruct (while fuel _ _ self) as [[[]| e |] s1]; cbn in Hin1;
          try contradiction; discriminate.
      * intros [[Hz|[_ Hbottom]] _]; bools; fields; lia.
    + rewrite (Hout1 eq_refl).
      destruct (Hloop2 self Hbody2) as [Hout2 Hin2].
      match goal with |- context [while fuel ?c ?b self] =>
        destruct (c self) eqn:Hc3 end.
      * specialize (Hin2 eq_refl). split; [intros H; contradiction|].
        intros [_ [Hrow|Hin]]; bools; fields; lia.
      * rewrite (Hout2 eq_refl). split; [intros _|reflexivity].
        bools; fields; repeat split; lia.
Qed.

(** *** The full redraw *)

Lemma refresh_row_highlighted (y : Z) (self : Lightbar) :
  highlighted (refresh_row y self) = true <->
  y = vitem_idx self /\ index self < len self.
Proof.
  unfold refresh_row.
  destruct (Z.geb_spec (vitem_shift self + y) (len self)); cbn [highlighted].
  - split; [discriminate|]. intros [-> Hin]. unfold index in *. lia.
  - rewrite Z.eqb_eq. unfold index in *. split; [intros E | intros [E _]]; [split|]; lia.
Qed.

Lemma refresh_rows_highlighted (n : nat) (self : Lightbar) :
  List.filter highlighted
    (map (fun ypos => refresh_row ypos self) (map Z.of_nat (seq 0 n))) =
  if (0 <=? vitem_idx self) && (vitem_idx self <? Z.of_nat n)
     && (index self <? len self)
  then [refresh_row (vitem_idx self) self] else [].
Proof.
  induction n as [|n IH].
  - cbn [seq map List.filter]. change (Z.of_nat 0) with 0.
    destruct (Z.leb_spec 0 (vitem_idx self)), (Z.ltb_spec (vitem_idx self) 0);
      cbn [andb]; try reflexivity; lia.
  - rewrite List.seq_S, !List.map_app, List.filter_app, IH.
    cbn [map List.filter Nat.add].
    pose proof (refresh_row_highlighted (Z.of_nat n) self) as Hn.
    destruct (highlighted (refresh_row (Z.of_nat n) self)).
    + destruct (proj1 Hn eq_refl) as [Hrow Hin]. rewrite <- Hrow.
      destruct (Z.leb_spec 0 (Z.of_nat n)); [|lia].
      destruct (Z.ltb_spec (Z.of_nat n) (Z.of_nat n)); [lia|].
      destruct (Z.ltb_spec (Z.of_nat n) (Z.of_nat (S n))); [|lia].
      destruct (Z.ltb_spec (index self) (len self)); [|lia].
      reflexivity.
    + rewrite app_nil_r.
      destruct (Z.leb_spec 0 (vitem_idx self)); cbn [andb]; [|reflexivity].
      destruct (Z.ltb_spec (index self) (len self));
        [|rewrite !andb_false_r; reflexivity].
      destruct (Z.ltb_spec (vitem_idx self) (Z.of_nat n));
        destruct (Z.ltb_spec (vitem_idx self) (Z.of_nat (S n)));
        try reflexivity; lia.
Qed.

(** X20. The full redraw has one piece for each row below [visible_bottom]
    and highlights at most one of them: the piece of the selected row, when
    that row is in the window and the selection is in the content. In a
    state whose selection lies past the content no row is highlighted. *)
Theorem refresh_highlights_selection (self : Lightbar) :
  length (refresh self) = Z.to_nat (visible_bottom (window self)) /\
  List.filter highlighted (refresh self) =
  if (0 <=? vitem_idx self) && (vitem_idx self <? visible_bottom (window self))
     && (index self <? len self)
  then [Entry (ypadding (window self) + vitem_idx self) (xpadding (window self)) true]
  else [].
Proof.
  unfold refresh, range. split.
  - rewrite !length_map, length_seq. reflexivity.
  - rewrite refresh_rows_highlighted.
    destruct (Z.leb_spec 0 (vitem_idx self)); cbn [andb]; [|reflexivity].
    replace (vitem_idx self <? Z.of_nat (Z.to_nat (visible_bottom (window self))))
      with (vitem_idx self <? visible_bottom (window self))
      by (destruct (Z.ltb_spec (vitem_idx self) (visible_bottom (window self)));
          destruct (Z.ltb_spec (vitem_idx self)
                      (Z.of_nat (Z.to_nat (visible_bottom (window self)))));
          try reflexivity; lia).
    destruct (vitem_idx self <? visible_bottom (window self)); cbn [andb];
      [|reflexivity].
    destruct (Z.ltb_spec (index self) (len self)); [|reflexivity].
    unfold refresh_row.
    destruct (Z.geb_spec (vitem_shift self + vitem_idx self) (len self));
      [unfold index in *; lia|].
    unfold index. rewrite Z.eqb_refl. reflexivity.
Qed.

(** *** The shared key set *)

(** X21. Every call of [init_keystrokes] leaves its mark on the shared
    [NETHACK_KEYSET] before it raises: [n] calls have appended [n] copies of
    the terminal's home key to the list under [home] and [n] copies of its
    end key to the list under [end], have left every other binding as the
    module defines it, and the next call raises [KeyError] for [pageup]
    again. A call of the constructor never gets that far and leaves the key
    set as it found it. *)
Theorem init_keystrokes_grows_shared_keyset (term : Terminal) (n : nat) :
  let ks := init_keystrokes_calls term n NETHACK_KEYSET in
  ks !! "home"%string = Some (PyStr "y" :: repeat (KEY_HOME term) n) /\
  ks !! "end"%string = Some (PyStr "n" :: repeat (KEY_END term) n) /\
  (forall name, name <> "home"%string -> name <> "end"%string ->
                ks !! name = NETHACK_KEYSET !! name) /\
  fst (init_keystrokes term ks) = Raise (KeyError "pageup") /\
  (forall height width yloc xloc,
     snd (__init__ term height width yloc xloc ks) = ks).
Proof.
  cbv zeta.
  assert (Hgrow :
    init_keystrokes_calls term n NETHACK_KEYSET !! "home"%string
      = Some (PyStr "y" :: repeat (KEY_HOME term) n) /\
    init_keystrokes_calls term n NETHACK_KEYSET !! "end"%string
      = Some (PyStr "n" :: repeat (KEY_END term) n) /\
    forall name, name <> "home"%string -> name <> "end"%string ->
      init_keystrokes_calls term n NETHACK_KEYSET !! name = NETHACK_KEYSET !! name).
  { induction n as [|n (Hhome & Hend & Hrest)].
    - repeat split; reflexivity.
    - change (init_keystrokes_calls term (S n) NETHACK_KEYSET)
        with (snd (init_keystrokes term (init_keystrokes_calls term n NETHACK_KEYSET))).
      rewrite (init_keystrokes_run term _ _ _ Hhome Hend)
        by (rewrite Hrest by discriminate; reflexivity).
      cbn [snd]. repeat split.
      + rewrite lookup_insert_ne by discriminate. rewrite lookup_insert_eq.
        cbn [repeat]. rewrite repeat_cons. reflexivity.
      + rewrite lookup_insert_eq. cbn [repeat]. rewrite repeat_cons. reflexivity.
      + intros name Hnh Hne. rewrite !lookup_insert_ne by congruence. auto. }
  destruct Hgrow as (Hhome & Hend & Hrest).
  split; [exact Hhome|]. split; [exact Hend|]. split; [exact Hrest|]. split.
  - rewrite (init_keystrokes_run term _ _ _ Hhome Hend)
      by (rewrite Hrest by discriminate; reflexivity).
    reflexivity.
  - intros height width yloc xloc. rewrite __init___run. reflexivity.
Qed.

(** *** The invariant over a run *)




End lightbar_further_properties.

(** ** Further properties of the line editor *)

Section strings.

Lemma append_cons (a : ascii) (s1 s2 : string) :
  (String a s1 ++ s2 = String a (s1 ++ s2))%string.
Proof. reflexivity. Qed.

Lemma append_snoc (value : string) (c : ascii) (s : string) :
  ((value ++ String c "") ++ s = value ++ String c s)%string.
Proof.
  induction value as [|a value IH]; [reflexivity|].
  rewrite !append_cons, IH. reflexivity.
Qed.

Lemma append_empty (value : string) : (value ++ "")%string = value.
Proof.
  induction value as [|a value IH]; [reflexivity|].
  rewrite append_cons, IH. reflexivity.
Qed.

Lemma length_snoc (value : string) (c : ascii) :
  String.length (value ++ String c "") = S (String.length value).
Proof.
  induction value as [|a value IH]; [reflexivity|].
  rewrite append_cons. cbn [String.length]. rewrite IH. reflexivity.
Qed.

Lemma drop_last_snoc (value : string) (c : ascii) :
  drop_last (value ++ String c "") = value.
Proof.
  induction value as [|a value IH]; [reflexivity|].
  rewrite append_cons. cbn [drop_last]. rewrite IH.
  destruct value; reflexivity.
Qed.

Lemma drop_last_length (value : string) :
  String.length (drop_last value) = Nat.pred (String.length value).
Proof.
  induction value as [|a value IH]; [reflexivity|].
  cbn [drop_last]. destruct value as [|b value]; [reflexivity|].
  cbn [String.length] in *. rewrite IH. reflexivity.
Qed.

End strings.

Section input_further_properties.

Variable term : Terminal.
Variables (width : Z) (hidden paddchar : string) (silent : bool).

Lemma accepted_keys (c : ascii) :
  accepted term c = true ->
  ordinary term (char_key c) = true /\ isprint (Z.of_nat (nat_of_ascii c)) = true.
Proof. unfold accepted. rewrite andb_true_iff. tauto. Qed.

(** Typing accepted characters into a buffer with room for them: each is
    appended and echoed, and the loop goes on with the next event. *)
Lemma read_loop_typed (cs : list ascii) (rest : list (string * pyval))
    (value : string) (out : Echoed) :
  forallb (accepted term) cs = true ->
  Z.of_nat (String.length value + length cs) <= width ->
  read_loop term width hidden paddchar false silent
    (map (fun c => key_event (char_key c)) cs ++ rest) value out =
  read_loop term width hidden paddchar false silent rest
    (value ++ string_of_list_ascii cs) (out ++ map (typed_echo hidden) cs).
Proof.
  revert value out. induction cs as [|c cs IH]; intros value out Hacc Hroom.
  - cbn [map app string_of_list_ascii]. rewrite append_empty, app_nil_r. reflexivity.
  - cbn [forallb] in Hacc. apply andb_true_iff in Hacc as [Hc Hcs].
    apply accepted_keys in Hc as [Hord Hprint].
    cbn [map app string_of_list_ascii length] in *.
    rewrite read_loop_ordinary by assumption. unfold bind at 1.
    unfold char_key in *. rewrite keystroke_printable by (assumption || lia).
    cbv beta iota. rewrite IH; [| assumption | rewrite length_snoc; lia].
    rewrite append_snoc, <- app_assoc. reflexivity.
Qed.

Lemma readlineevent_initial (interactive : bool) (value : string)
    (pending : list (string * pyval)) (out : Echoed) :
  readlineevent term width value hidden paddchar interactive silent pending out =
  read_loop term width hidden paddchar interactive silent pending value
    (out ++ initial_echo hidden value).
Proof.
  unfold readlineevent, initial_echo, bind, echo, modify, ret.
  destruct (truthy hidden), (truthy value); cbn [negb andb];
    rewrite ?app_nil_r; reflexivity.
Qed.

(** X22. Typing and submitting. With an initial value and accepted
    characters that together fit the width, the characters followed by the
    enter key make [readlineevent] return the initial value extended by the
    characters, with the event [input] and a newline. The echo is the
    initial value (masked as a whole when there is a mask) followed by one
    echo for each character: the character itself without a mask, the mask
    and never the character with one. *)
Theorem readlineevent_typed_then_enter (value : string) (cs : list ascii)
    (rest : list (string * pyval)) (out : Echoed) :
  forallb (accepted term) cs = true ->
  Z.of_nat (String.length value + length cs) <= width ->
  pyval_eqb (KEY_ENTER term) (KEY_EXIT term) = false ->
  readlineevent term width value hidden paddchar false silent
    (map (fun c => key_event (char_key c)) cs ++ key_event (KEY_ENTER term) :: rest) out =
  (Ret (Some (value ++ string_of_list_ascii cs)%string, "input"%string, PyStr newline),
   out ++ initial_echo hidden value ++ map (typed_echo hidden) cs).
Proof.
  intros Hacc Hroom Hne.
  rewrite readlineevent_initial, read_loop_typed by assumption.
  rewrite read_loop_enter by assumption. rewrite <- app_assoc. reflexivity.
Qed.

(** X23. Leaving without submitting. After the same typing, the exit key
    makes [readlineevent] return [None] in the place of the value, so that
    what was typed is lost to the caller, and an event of another kind than
    [input] is passed through with its data and the value typed so far. *)
Theorem readlineevent_typed_then_leaves (value : string) (cs : list ascii)
    (rest : list (string * pyval)) (out : Echoed) (event : string) (data : pyval) :
  forallb (accepted term) cs = true ->
  Z.of_nat (String.length value + length cs) <= width ->
  String.eqb event "input" = false ->
  fst (readlineevent term width value hidden paddchar false silent
         (map (fun c => key_event (char_key c)) cs ++ key_event (KEY_EXIT term) :: rest)
         out)
  = Ret (None, "input"%string, PyNone) /\
  fst (readlineevent term width value hidden paddchar false silent
         (map (fun c => key_event (char_key c)) cs ++ (event, data) :: rest) out)
  = Ret (Some (value ++ string_of_list_ascii cs)%string, event, data).
Proof.
  intros Hacc Hroom Hev.
  rewrite !readlineevent_initial, !read_loop_typed by assumption.
  cbn [read_loop key_event]. cbn [String.eqb Ascii.eqb Bool.eqb negb].
  rewrite pyval_eqb_refl, Hev. split; reflexivity.
Qed.

(** X24. Backspace. Outside interactive mode the backspace key removes the
    last character of the buffer and echoes the erase sequence (backspace,
    pad character, backspace); on an empty buffer it changes nothing and
    echoes nothing, not even the bell. *)
Theorem read_loop_backspace (rest : list (string * pyval)) (value : string)
    (out : Echoed) :
  pyval_eqb (KEY_BACKSPACE term) (KEY_EXIT term) = false ->
  pyval_eqb (KEY_BACKSPACE term) (KEY_ENTER term) = false ->
  read_loop term width hidden paddchar false silent
    (key_event (KEY_BACKSPACE term) :: rest) value out =
  read_loop term width hidden paddchar false silent rest (drop_last value)
    (out ++ if String.eqb value "" then []
            else [PyStr (backspace ++ paddchar ++ backspace)]) /\
  String.length (drop_last value) = Nat.pred (String.length value).
Proof.
  intros Hexit Henter. split; [|apply drop_last_length].
  cbn [read_loop key_event]. cbn [String.eqb Ascii.eqb Bool.eqb negb].
  rewrite Hexit, Henter. unfold keystroke. rewrite pyval_eqb_refl.
  destruct value as [|a value].
  - cbn [String.length Z.of_nat Z.gtb Z.compare String.eqb drop_last].
    unfold bind, ret. rewrite app_nil_r. reflexivity.
  - replace (Z.of_nat (String.length (String a value)) >? 0) with true
      by (symmetry; rewrite Z.gtb_ltb; apply Z.ltb_lt; cbn [String.length]; lia).
    reflexivity.
Qed.

(** X25. Backspace undoes typing. An accepted character typed into a buffer
    with room and then erased leaves the buffer as it was; the echo holds
    the echo of the character and the erase sequence. *)
Theorem read_loop_type_then_backspace (c : ascii) (rest : list (string * pyval))
    (value : string) (out : Echoed) :
  accepted term c = true ->
  Z.of_nat (String.length value) < width ->
  pyval_eqb (KEY_BACKSPACE term) (KEY_EXIT term) = false ->
  pyval_eqb (KEY_BACKSPACE term) (KEY_ENTER term) = false ->
  read_loop term width hidden paddchar false silent
    (key_event (char_key c) :: key_event (KEY_BACKSPACE term) :: rest) value out =
  read_loop term width hidden paddchar false silent rest value
    (out ++ [typed_echo hidden c; PyStr (backspace ++ paddchar ++ backspace)]).
Proof.
  intros Hacc Hroom Hexit Henter. apply accepted_keys in Hacc as [Hord Hprint].
  rewrite read_loop_ordinary by assumption. unfold bind at 1.
  unfold char_key in *. rewrite keystroke_printable by assumption. cbv beta iota.
  cbn [read_loop key_event]. cbn [String.eqb Ascii.eqb Bool.eqb negb].
  rewrite Hexit, Henter. unfold keystroke. rewrite pyval_eqb_refl.
  replace (Z.of_nat (String.length (value ++ String c "")) >? 0) with true
    by (symmetry; rewrite Z.gtb_ltb; apply Z.ltb_lt; rewrite length_snoc; lia).
  unfold bind, echo, modify, ret. cbv beta iota.
  rewrite drop_last_snoc, <- app_assoc. reflexivity.
Qed.

(** X26. Key codes are dropped without a sound. Outside interactive mode an
    integer key code that is none of the special keys leaves the buffer and
    the echo as they were, in silent mode or not. *)
Theorem read_loop_keycode_ignored (n : Z) (rest : list (string * pyval))
    (value : string) (out : Echoed) :
  ordinary term (PyInt n) = true ->
  read_loop term width hidden paddchar false silent
    (key_event (PyInt n) :: rest) value out =
  read_loop term width hidden paddchar false silent rest value out.
Proof.
  intros Hord. rewrite read_loop_ordinary by assumption.
  apply ordinary_keys in Hord as (_ & _ & Hbs).
  unfold bind, keystroke. rewrite Hbs. reflexivity.
Qed.

(** X27. Characters that are refused. A character that is none of the
    special keys and is not printable, or that arrives when the buffer is
    full, is not appended; the editor echoes the bell for it unless it is
    silent. *)
Theorem read_loop_character_refused (c : ascii) (rest : list (string * pyval))
    (value : string) (out : Echoed) :
  ordinary term (char_key c) = true ->
  width <= Z.of_nat (String.length value)
  \/ isprint (Z.of_nat (nat_of_ascii c)) = false ->
  read_loop term width hidden paddchar false silent
    (key_event (char_key c) :: rest) value out =
  read_loop term width hidden paddchar false silent rest value
    (out ++ if silent then [] else [PyInt BEL]).
Proof.
  intros Hord Hwhy. rewrite read_loop_ordinary by assumption. unfold bind at 1.
  destruct (Z.le_gt_cases width (Z.of_nat (String.length value))) as [Hfull|Hroom].
  - unfold char_key in *. rewrite keystroke_full by assumption. reflexivity.
  - destruct Hwhy as [Hfull|Hprint]; [lia|].
    apply ordinary_keys in Hord as (_ & _ & Hbs).
    unfold keystroke. rewrite Hbs. cbn [is_int char_key].
    destruct (Z.ltb_spec (Z.of_nat (String.length value)) width); [|lia].
    unfold bind, lift, ret, ord, echo, modify, char_key. rewrite Hprint.
    destruct silent; cbn [negb]; cbv beta iota; rewrite ?app_nil_r; reflexivity.
Qed.

(** X28. Payloads [ord] refuses. While the buffer has room, a keystroke
    that is no integer, is none of the special keys and is not a string of
    one character makes [readlineevent] raise the [TypeError] of [ord],
    with nothing echoed for it; once the buffer is full the same keystroke
    only rings the bell. *)
Theorem read_loop_payload_type_error (char : pyval) (e : exn)
    (rest : list (string * pyval)) (value : string) (out : Echoed) :
  ordinary term char = true -> is_int char = false -> ord char = Raise e ->
  (Z.of_nat (String.length value) < width ->
   read_loop term width hidden paddchar false silent (key_event char :: rest) value out
   = (Raise e, out)) /\
  (width <= Z.of_nat (String.length value) ->
   read_loop term width hidden paddchar false silent (key_event char :: rest) value out
   = read_loop term width hidden paddchar false silent rest value
       (out ++ if silent then [] else [PyInt BEL])).
Proof.
  intros Hord Hint Hraise.
  pose proof (ordinary_keys term char Hord) as (_ & _ & Hbs).
  split; intros Hw; rewrite read_loop_ordinary by assumption; unfold bind at 1;
    unfold keystroke; rewrite Hbs, Hint.
  - destruct (Z.ltb_spec (Z.of_nat (String.length value)) width); [|lia].
    unfold bind, lift. rewrite Hraise. reflexivity.
  - destruct (Z.ltb_spec (Z.of_nat (String.length value)) width); [lia|].
    unfold bind, ret, echo, modify.
    destruct silent; cbn [negb]; cbv beta iota; rewrite ?app_nil_r; reflexivity.
Qed.

(** One keystroke never makes the buffer longer than the width, unless it
    was longer already. *)
Lemma keystroke_length (value : string) (char : pyval) (out : Echoed)
    (value' : string) (out' : Echoed) :
  keystroke term width hidden paddchar silent value char out = (Ret value', out') ->
  Z.of_nat (String.length value') <= Z.max width (Z.of_nat (String.length value)).
Proof.
  unfold keystroke.
  destruct (pyval_eqb char (KEY_BACKSPACE term)).
  - destruct (Z.of_nat (String.length value) >? 0); unfold bind, echo, modify, ret;
      intros [= <- _]; [rewrite drop_last_length|]; lia.
  - destruct (is_int char); [intros [= <- _]; lia|].
    destruct (Z.ltb_spec (Z.of_nat (String.length value)) width) as [Hroom|Hfull].
    + unfold bind, lift, ret, echo, modify, ord.
      destruct char as [[|c [|? ?]]| |]; try discriminate.
      destruct (isprint (Z.of_nat (nat_of_ascii c))).
      * intros [= <- _]. cbn [append_char]. rewrite length_snoc. lia.
      * destruct silent; intros [= <- _]; lia.
    + unfold bind, ret, echo, modify.
      destruct silent; intros [= <- _]; lia.
Qed.

Lemma keystroke_ends (value : string) (char : pyval) (out : Echoed) :
  fst (keystroke term width hidden paddchar silent value char out) <> Unfinished.
Proof.
  unfold keystroke.
  destruct (pyval_eqb char (KEY_BACKSPACE term)).
  - destruct (Z.of_nat (String.length value) >? 0); discriminate.
  - destruct (is_int char); [discriminate|].
    destruct (Z.of_nat (String.length value) <? width).
    + unfold bind, lift, ret, echo, modify, ord.
      destruct char as [[|c [|? ?]]| |]; try discriminate.
      destruct (isprint (Z.of_nat (nat_of_ascii c))); [discriminate|].
      destruct silent; discriminate.
    + unfold bind, ret, echo, modify. destruct silent; discriminate.
Qed.

(** X29. The buffer never outgrows the width. Whatever events arrive, in
    interactive mode or not, a value [readlineevent] returns is no longer
    than the width, or than the initial value when that was longer
    already. *)
Theorem readlineevent_length_bound (interactive : bool)
    (pending : list (string * pyval)) (value : string) (out : Echoed)
    (value' : string) (event : string) (data : pyval) (out' : Echoed) :
  readlineevent term width value hidden paddchar interactive silent pending out
  = (Ret (Some value', event, data), out') ->
  Z.of_nat (String.length value') <= Z.max width (Z.of_nat (String.length value)).
Proof.
  rewrite readlineevent_initial. generalize (out ++ initial_echo hidden value).
  clear out. revert value.
  induction pending as [|[ev char] pending IH]; intros value out; [discriminate|].
  cbn [read_loop].
  destruct (negb (ev =? "input")%string); [intros [= <- _ _ _]; lia|].
  destruct (pyval_eqb char (KEY_EXIT term)); [discriminate|].
  destruct (pyval_eqb char (KEY_ENTER term)); [intros [= <- _ _ _]; lia|].
  unfold bind.
  destruct (keystroke term width hidden paddchar silent value char out)
    as [[v1| e |] out1] eqn:Hkey; try discriminate.
  apply keystroke_length in Hkey.
  destruct interactive.
  - intros [= <- _ _ _]. assumption.
  - intros Hrest. apply IH in Hrest. lia.
Qed.

(** X30. Interactive mode takes one event. With [interactive] set, the
    first event ends the call, which returns or raises and never waits for
    a second event: what follows in the queue does not matter. A keystroke
    that is not the exit or the enter key returns the value with [None] as
    its data. *)
Theorem read_loop_interactive_one_event (event : string * pyval)
    (rest : list (string * pyval)) (value : string) (out : Echoed) :
  read_loop term width hidden paddchar true silent (event :: rest) value out =
  read_loop term width hidden paddchar true silent [event] value out /\
  fst (read_loop term width hidden paddchar true silent (event :: rest) value out)
  <> Unfinished.
Proof.
  destruct event as [ev char]. cbn [read_loop].
  destruct (negb (ev =? "input")%string); [split; [reflexivity|discriminate]|].
  destruct (pyval_eqb char (KEY_EXIT term)); [split; [reflexivity|discriminate]|].
  destruct (pyval_eqb char (KEY_ENTER term)); [split; [reflexivity|discriminate]|].
  unfold bind. pose proof (keystroke_ends value char out) as Hends.
  destruct (keystroke term width hidden paddchar silent value char out)
    as [[v1| e |] out1]; cbn [fst] in *; split;
    first [reflexivity | discriminate | contradiction].
Qed.

End input_further_properties.

Lemma readlineevent_typed_then_enter_witness :
  readlineevent curses_terminal 8 "ab" "*" " " false false
    (map (fun c => key_event (char_key c)) ["c"%char; "d"%char]
     ++ key_event (KEY_ENTER curses_terminal) :: []) [] =
  (Ret (Some "abcd"%string, "input"%string, PyStr newline),
   [PyStr "**"; PyStr "*"; PyStr "*"]).
Proof.
  apply (readlineevent_typed_then_enter curses_terminal 8 "*" " " false "ab"
           ["c"%char; "d"%char] [] []); vm_compute; first [reflexivity | discriminate].
Defined.

Lemma readlineevent_typed_then_leaves_witness :
  fst (readlineevent curses_terminal 8 "" "" " " false false
         (map (fun c => key_event (char_key c)) ["c"%char; "d"%char]
          ++ key_event (KEY_EXIT curses_terminal) :: []) [])
  = Ret (None, "input"%string, PyNone) /\
  fst (readlineevent curses_terminal 8 "" "" " " false false
         (map (fun c => key_event (char_key c)) ["c"%char; "d"%char]
          ++ ("refresh"%string, PyStr "resize") :: []) [])
  = Ret (Some "cd"%string, "refresh"%string, PyStr "resize").
Proof.
  apply (readlineevent_typed_then_leaves curses_terminal 8 "" " " false ""
           ["c"%char; "d"%char] [] [] "refresh" (PyStr "resize"));
    vm_compute; first [reflexivity | discriminate].
Defined.

Lemma read_loop_backspace_witness :
  read_loop curses_terminal 8 "" " " false false
    (key_event (KEY_BACKSPACE curses_terminal) :: []) "ab" [] =
  read_loop curses_terminal 8 "" " " false false [] (drop_last "ab")
    ([] ++ [PyStr (backspace ++ " " ++ backspace)]).
Proof.
  apply (read_loop_backspace curses_terminal 8 "" " " false [] "ab" []); reflexivity.
Defined.

Lemma read_loop_type_then_backspace_witness :
  read_loop curses_terminal 8 "" " " false false
    (key_event (char_key "c"%char) :: key_event (KEY_BACKSPACE curses_terminal) :: [])
    "ab" [] =
  read_loop curses_terminal 8 "" " " false false [] "ab"
    ([] ++ [typed_echo "" "c"%char; PyStr (backspace ++ " " ++ backspace)]).
Proof.
  apply (read_loop_type_then_backspace curses_terminal 8 "" " " false "c"%char [] "ab" []);
    vm_compute; first [reflexivity | discriminate].
Defined.

Lemma read_loop_keycode_ignored_witness :
  read_loop curses_terminal 8 "" " " false false
    (key_event (PyInt 258) :: [key_event (KEY_ENTER curses_terminal)]) "ab" [] =
  read_loop curses_terminal 8 "" " " false false
    [key_event (KEY_ENTER curses_terminal)] "ab" [].
Proof.
  apply (read_loop_keycode_ignored curses_terminal 8 "" " " false 258). reflexivity.
Defined.

Lemma read_loop_character_refused_witness :
  read_loop curses_terminal 8 "" " " false false
    (key_event (char_key (ascii_of_nat 9)) :: []) "ab" [] =
  read_loop curses_terminal 8 "" " " false false [] "ab" ([] ++ [PyInt BEL]).
Proof.
  apply (read_loop_character_refused curses_terminal 8 "" " " false (ascii_of_nat 9)).
  - reflexivity.
  - right. reflexivity.
Defined.

Lemma read_loop_payload_type_error_witness :
  read_loop curses_terminal 8 "" " " false false (key_event PyNone :: []) "ab" []
  = (Raise (TypeError "ord() expected a character"), []).
Proof.
  apply (read_loop_payload_type_error curses_terminal 8 "" " " false PyNone
           (TypeError "ord() expected a character") [] "ab" []);
    vm_compute; first [reflexivity | discriminate].
Defined.

Lemma readlineevent_length_bound_witness :
  Z.of_nat (String.length "abc") <= Z.max 3 (Z.of_nat (String.length "")).
Proof.
  apply (readlineevent_length_bound curses_terminal 3 "" " " false false
           (map key_event [PyStr "a"; PyStr "b"; PyStr "c"; PyStr "d";
                           KEY_ENTER curses_terminal])
           "" [] "abc" "input" (PyStr newline)
           [PyStr "a"; PyStr "b"; PyStr "c"; PyInt BEL]).
  reflexivity.
Defined.
